(** * easyRFQ backend: token service, auth middleware, partial-update builder

    A shallow embedding of the helpers (helpers/sql.js, helpers/tokens.js),
    of the guards of middleware/auth.js, of model methods of models/user.js,
    models/rfq.js and models/item.js, and of the route handlers that call
    them, with the properties the specification states about them and
    further properties read off the code. *)

From Stdlib Require Import QArith Qcanon.
From stdpp Require Import gmap strings list pretty numbers sorting.

Local Open Scope string_scope.
Local Open Scope Z_scope.

(** ** JavaScript values

    The values that travel through the embedded functions: request fields,
    row columns, token claims.  Numbers are the integers, [JNum], and the
    finite numbers that are not integers, [JFrac]. *)

Inductive JSVal : Type :=
| JUndefined
| JNull
| JBool (b : bool)
| JNum (n : Z)
| JFrac (q : Qc)
| JStr (s : string).

Global Instance JSVal_eq_dec : EqDecision JSVal.
Proof. solve_decision. Defined.

Definition JSVal_to_sum (v : JSVal) : unit + (unit + (bool + (Z + (Qc + string)))) :=
  match v with
  | JUndefined => inl ()
  | JNull => inr (inl ())
  | JBool b => inr (inr (inl b))
  | JNum n => inr (inr (inr (inl n)))
  | JFrac q => inr (inr (inr (inr (inl q))))
  | JStr s => inr (inr (inr (inr (inr s))))
  end.

Definition JSVal_of_sum (x : unit + (unit + (bool + (Z + (Qc + string))))) : JSVal :=
  match x with
  | inl _ => JUndefined
  | inr (inl _) => JNull
  | inr (inr (inl b)) => JBool b
  | inr (inr (inr (inl n))) => JNum n
  | inr (inr (inr (inr (inl q)))) => JFrac q
  | inr (inr (inr (inr (inr s)))) => JStr s
  end.

Global Instance JSVal_countable : Countable JSVal.
Proof.
  apply (inj_countable' JSVal_to_sum JSVal_of_sum).
  by intros [].
Defined.

(** ToBoolean: [undefined], [null], [false], [0] and the empty string are
    falsy, every other value is truthy. *)
Definition truthy (v : JSVal) : bool :=
  match v with
  | JUndefined | JNull => false
  | JBool b => b
  | JNum n => negb (n =? 0)
  | JFrac q => negb (bool_decide (q = 0%Qc))
  | JStr s => negb (String.eqb s EmptyString)
  end.

(** [a || b] *)
Definition js_or (a b : JSVal) : JSVal := if truthy a then a else b.

(** A plain object used as a record of named fields. *)
Abbreviation JSObject := (gmap string JSVal).

(** Property read [o.k]: a missing property reads as [undefined]. *)
Definition get (o : JSObject) (k : string) : JSVal := default JUndefined (o !! k).

(** ** Errors *)

Inductive ErrorKind : Type := BadRequest | Unauthorized | NotFound.

Global Instance ErrorKind_eq_dec : EqDecision ErrorKind.
Proof. solve_decision. Defined.

(** Modelled from the spec: expressError.js is not among the sources; the
    error classes it exports are the error kinds of the specification
    (Unauthorized, Bad Request, and NotFound used by the models), each
    carrying its message. *)
Record ExpressError : Type := mkError { err_kind : ErrorKind; err_message : string }.

Global Instance ExpressError_eq_dec : EqDecision ExpressError.
Proof. solve_decision. Defined.

Definition BadRequestError (msg : string) : ExpressError := mkError BadRequest msg.
Definition UnauthorizedError (msg : string) : ExpressError := mkError Unauthorized msg.
Definition NotFoundError (msg : string) : ExpressError := mkError NotFound msg.

(** ** helpers/sql.js *)

Definition dquote : string := String (Ascii.ascii_of_nat 34) EmptyString.

(** [Array.prototype.join] *)
Fixpoint join (sep : string) (l : list string) : string :=
  match l with
  | [] => EmptyString
  | [x] => x
  | x :: xs => x +:+ sep +:+ join sep xs
  end.

(** What a plain object inherits from [Object.prototype]: each inherited
    property name, with the text its value has in a template literal (the
    functions as V8 prints them; [__proto__] reads the prototype object). *)
Definition Object_prototype : gmap string string :=
  list_to_map
    [ ("constructor", "function Object() { [native code] }");
      ("__defineGetter__", "function __defineGetter__() { [native code] }");
      ("__defineSetter__", "function __defineSetter__() { [native code] }");
      ("hasOwnProperty", "function hasOwnProperty() { [native code] }");
      ("__lookupGetter__", "function __lookupGetter__() { [native code] }");
      ("__lookupSetter__", "function __lookupSetter__() { [native code] }");
      ("isPrototypeOf", "function isPrototypeOf() { [native code] }");
      ("propertyIsEnumerable", "function propertyIsEnumerable() { [native code] }");
      ("toString", "function toString() { [native code] }");
      ("valueOf", "function valueOf() { [native code] }");
      ("__proto__", "[object Object]");
      ("toLocaleString", "function toLocaleString() { [native code] }") ].

(** The value of a decimal digit. *)
Definition digit (a : Ascii.ascii) : option N :=
  let n := Ascii.N_of_ascii a in
  if ((48 <=? n) && (n <=? 57))%N then Some (n - 48)%N else None.

Fixpoint digits_value (acc : N) (s : string) : option N :=
  match s with
  | EmptyString => Some acc
  | String a s =>
      match digit a with
      | Some d => digits_value (10 * acc + d)%N s
      | None => None
      end
  end.

(** An array index: the canonical decimal text of an integer from 0 to
    2^32 - 2.  The property names of this form are the integer-like ones. *)
Definition array_index (k : string) : option N :=
  match k with
  | EmptyString => None
  | String a rest =>
      match digit a with
      | None => None
      | Some 0%N => if String.eqb rest EmptyString then Some 0%N else None
      | Some _ =>
          match digits_value 0 k with
          | Some n => if (n <? 4294967295)%N then Some n else None
          | None => None
          end
      end
  end.

Module Sql.
Section Builder.
(** The builder never inspects the values to store. *)
Context {V : Type}.

(** The order of two properties by the array index of their names. *)
Definition index_le (kv1 kv2 : string * V) : Prop :=
  (default 0 (array_index kv1.1) ≤ default 0 (array_index kv2.1))%N.

Global Instance index_le_dec : RelDecision index_le.
Proof. intros kv1 kv2. unfold index_le. apply _. Defined.

(** The own properties of an object in enumeration order, from its
    properties in the order of their creation (their names distinct): the
    array indices come first, in ascending numeric order, then the other
    names in the order of their creation. *)
Definition own_property_order (created : list (string * V)) : list (string * V) :=
  (merge_sort index_le (filter (λ kv, is_Some (array_index kv.1)) created)
   ++ filter (λ kv, array_index kv.1 = None) created)%list.

(** The object [dataToUpdate], as the sequence of its own properties in
    enumeration order, which [Object.keys] and [Object.values] share. *)
Definition Object_keys (o : list (string * V)) : list string := o.*1.
Definition Object_values (o : list (string * V)) : list V := o.*2.

(** [jsToSql[colName] || colName], on a name map written as an object
    literal: a name that is not an own property of the map is looked up in
    the prototype, whose values are truthy. *)
Definition column (jsToSql : gmap string string) (colName : string) : string :=
  match jsToSql !! colName with
  | Some c => if String.eqb c EmptyString then colName else c
  | None =>
      match Object_prototype !! colName with
      | Some inherited => inherited
      | None => colName
      end
  end.

(** The template literal of the [keys.map] callback. *)
Definition fragment (jsToSql : gmap string string) (idx : nat) (colName : string) : string :=
  dquote +:+ column jsToSql colName +:+ dquote +:+ "=$" +:+ pretty (idx + 1)%nat.

Record SetClause : Type := mkSetClause { setCols : string; values : list V }.

Definition cols (dataToUpdate : list (string * V)) (jsToSql : gmap string string)
  : list string :=
  imap (fragment jsToSql) (Object_keys dataToUpdate).

Definition sqlForPartialUpdate (dataToUpdate : list (string * V))
    (jsToSql : gmap string string) : ExpressError + SetClause :=
  let keys := Object_keys dataToUpdate in
  if decide (length keys = 0%nat) then inl (BadRequestError "No data")
  else inr {| setCols := join ", " (cols dataToUpdate jsToSql);
              values := Object_values dataToUpdate |}.
End Builder.
End Sql.

(** ** jsonwebtoken

    The library is not part of the repository.  Its compact serialisation
    (header, payload, HMAC signature) is kept abstract behind an interface
    with the one law the callers rely on: a token verifies under the secret
    it was signed with and yields the signed payload, as long as the payload
    sets no expiry ([exp]) and no not-before ([nbf]) claim. *)

Inductive VerifyError : Type :=
| JsonWebTokenError (msg : string)   (* malformed token, invalid signature *)
| TokenExpiredError
| NotBeforeError.

Class Jws : Type := {
  jws_sign : JSObject → string → string;
  jws_verify : Z → string → string → VerifyError + JSObject;
  jws_verify_sign : ∀ (clock : Z) (payload : JSObject) (secret : string),
    payload !! "exp" = None → payload !! "nbf" = None →
    jws_verify clock (jws_sign payload secret) secret = inr payload
}.

Module Jwt.
Section Jwt.
Context `{Jws}.

(** [JSON.parse(JSON.stringify(o))] on an object of scalar fields: the
    properties whose value is [undefined] are dropped. *)
Definition json (o : JSObject) : JSObject := filter (λ kv, kv.2 ≠ JUndefined) o.

(** [Math.floor(Date.now() / 1000)], the clock being read in milliseconds. *)
Definition seconds (now : Z) : Z := now `div` 1000.

(** [jwt.sign(payload, secret)] for an object payload without [iat] of
    its own and default options: a copy of the payload is stamped with
    the issuance time in whole seconds, serialised and signed. *)
Definition sign (now : Z) (payload : JSObject) (secret : string) : string :=
  let timestamp := seconds now in
  jws_sign (json (<["iat" := JNum timestamp]> payload)) secret.

(** [jwt.verify(token, secret)]: the decoded payload, or the failure. *)
Definition verify (now : Z) (token secret : string) : VerifyError + JSObject :=
  jws_verify (seconds now) token secret.
End Jwt.
End Jwt.

(** ** helpers/tokens.js *)

Section Tokens.
Context `{Jws}.
(** The process-wide secret of config.js. *)
Variable SECRET_KEY : string.

(** [createToken(user)] at clock reading [now]: the signed token, and the
    caller's [user] object as the call leaves it. *)
Definition createToken (now : Z) (user : JSObject) : string * JSObject :=
  let user :=
    if decide (get user "isAdmin" = JUndefined)
    then <["isAdmin" := JBool false]> user
    else user in
  let payload : JSObject :=
    {[ "id" := get user "id";
       "isAdmin" := js_or (get user "isAdmin") (JBool false);
       "companyId" := get user "companyId" ]} in
  (Jwt.sign now payload SECRET_KEY, user).
End Tokens.

(** ** middleware/auth.js *)

(** Modelled from the spec: the part of a request that the middleware of
    middleware/auth.js (not among the sources) reads: the [Authorization]
    header and the resource owner identifier implied by the route. *)
Record Request : Type := mkRequest { authorization : option string; owner : JSVal }.

(** Modelled from the spec: [res.locals], the request-scoped identity
    slot, empty or holding the decoded claim. *)
Record Locals : Type := mkLocals { user : option JSObject }.

(** Modelled from the spec: what a middleware hands onward to [next],
    nothing or an error. *)
Abbreviation Next := (option ExpressError).

(** Modelled from the spec: the token of an [Authorization] header of the
    form [Bearer <token>], read by the middleware of middleware/auth.js,
    which is not among the sources. *)
Definition bearerToken (header : string) : string :=
  if String.prefix "Bearer " header
  then String.substring 7 (String.length header - 7) header
  else header.

Section Middleware.
Context `{Jws}.
Variable SECRET_KEY : string.

(** Modelled from the spec: middleware/auth.js is not among the sources
    (only its tests are).  Section 4.2: without header the request stays
    anonymous; with a header the token is verified against the shared
    secret; a verified claim is stored in the identity slot; a failed
    verification is swallowed.  Control always passes onward. *)
Definition authenticateJWT (now : Z) (req : Request) (locals : Locals) : Locals * Next :=
  match authorization req with
  | None => (locals, None)
  | Some header =>
      match Jwt.verify now (bearerToken header) SECRET_KEY with
      | inr claim => ({| user := Some claim |}, None)
      | inl _ => (locals, None)
      end
  end.
End Middleware.

(** Modelled from the spec: the guards of middleware/auth.js, which is not
    among the sources.  Every guard failure is the one Unauthorized error. *)
Definition unauthorized : ExpressError := UnauthorizedError "Unauthorized".

(** Modelled from the spec: [ensureLoggedIn] passes if an identity is
    present, otherwise signals Unauthorized. *)
Definition ensureLoggedIn (locals : Locals) : Next :=
  match user locals with
  | Some _ => None
  | None => Some unauthorized
  end.

(** Modelled from the spec: [ensureAdmin] passes if an identity is present
    and its [isAdmin] flag is [true], otherwise signals Unauthorized. *)
Definition ensureAdmin (locals : Locals) : Next :=
  match user locals with
  | Some claim =>
      if decide (get claim "isAdmin" = JBool true) then None else Some unauthorized
  | None => Some unauthorized
  end.

(** Modelled from the spec: [ensureCorrectUserOrAdmin] passes if an
    identity is present and it is an admin or its user identifier matches
    the resource owner of the request, otherwise signals Unauthorized. *)
Definition ensureCorrectUserOrAdmin (req : Request) (locals : Locals) : Next :=
  match user locals with
  | Some claim =>
      if decide (get claim "isAdmin" = JBool true ∨ get claim "id" = owner req)
      then None else Some unauthorized
  | None => Some unauthorized
  end.

(** ** Database access

    A model method is a program over the queries it sends through
    [db.query]: it returns, throws, or sends a statement with its
    positional parameters and continues with the rows of the result. *)

Inductive Exn : Type :=
| Express (e : ExpressError)
| Other (msg : string).   (* a rejection of the driver or of a library *)

Inductive Db (Q A : Type) : Type :=
| Ret (a : A)
| Throw (e : Exn)
| Query (q : Q) (args : list JSVal) (k : list JSObject → Db Q A).

Arguments Ret {Q A} a.
Arguments Throw {Q A} e.
Arguments Query {Q A} q args k.

Fixpoint bind {Q A B : Type} (m : Db Q A) (f : A → Db Q B) : Db Q B :=
  match m with
  | Ret a => f a
  | Throw e => Throw e
  | Query q args k => Query q args (λ rows, bind (k rows) f)
  end.

Definition query {Q : Type} (q : Q) (args : list JSVal) : Db Q (list JSObject) :=
  Query q args Ret.

Notation "'await' x ← m ; f" := (bind m (λ x, f))
  (at level 10, x name, m at level 100, f at level 200, only parsing).

Inductive Outcome (A : Type) : Type :=
| Resolved (a : A)
| Rejected (e : Exn).

Arguments Resolved {A} a.
Arguments Rejected {A} e.

(** Running a program against a database: [exec] answers a statement from
    the state [St] of the store, with rows or with a failure. *)
Fixpoint run {Q St A : Type} (exec : Q → list JSVal → St → (string + list JSObject) * St)
    (p : Db Q A) (s : St) : Outcome A * St :=
  match p with
  | Ret a => (Resolved a, s)
  | Throw e => (Rejected e, s)
  | Query q args k =>
      match exec q args s with
      | (inr rows, s') => run exec (k rows) s'
      | (inl msg, s') => (Rejected (Other msg), s')
      end
  end.

(** The number of statements a run sends to the database. *)
Fixpoint sent {Q St A : Type} (exec : Q → list JSVal → St → (string + list JSObject) * St)
    (p : Db Q A) (s : St) : nat :=
  match p with
  | Ret _ | Throw _ => 0%nat
  | Query q args k =>
      match exec q args s with
      | (inr rows, s') => S (sent exec (k rows) s')
      | (inl _, _) => 1%nat
      end
  end.

(** ** models/user.js *)

Module User.
Inductive Statement : Type := SelectUserByEmail.

(** A row of the [users] table of the schema. *)
Record Row : Type := mkRow {
  id : Z;
  email : string;
  password : string;
  full_name : string;
  phone : option string;
  is_admin : bool;
  company_id : Z
}.

(** The select list of [authenticate], with its column aliases. *)
Definition selected (r : Row) : JSObject :=
  {[ "id" := JNum (id r);
     "email" := JStr (email r);
     "password" := JStr (password r);
     "fullName" := JStr (full_name r);
     "phone" := from_option JStr JNull (phone r);
     "isAdmin" := JBool (is_admin r);
     "companyId" := JNum (company_id r) ]}.

(** [WHERE email = $1] *)
Definition with_email (e : JSVal) (users : list Row) : list Row :=
  filter (λ r, JStr (email r) = e) users.

Definition exec (q : Statement) (args : list JSVal) (users : list Row)
  : (string + list JSObject) * list Row :=
  match q, args with
  | SelectUserByEmail, [e] => (inr (selected <$> with_email e users), users)
  | SelectUserByEmail, _ => (inl "bind message supplies the wrong number of parameters", users)
  end.

Section Authenticate.
(** [bcrypt.compare(data, hash)]: resolves to a boolean, or rejects
    ([None]) on arguments it does not accept. *)
Variable bcrypt_compare : JSVal → JSVal → option bool.

Definition authenticate (email password : JSVal) : Db Statement JSObject :=
  await result ← query SelectUserByEmail [email];
  match head result with
  | Some user =>
      match bcrypt_compare password (get user "password") with
      | Some true => Ret (delete "password" user)
      | Some false => Throw (Express (UnauthorizedError "Invalid email/password"))
      | None => Throw (Other "bcrypt")
      end
  | None => Throw (Express (UnauthorizedError "Invalid email/password"))
  end.
End Authenticate.
End User.

(** ** models/rfq.js *)

Module Rfq.
Inductive Statement : Type := InsertRfqItem.




Section Methods.
(** The conversion of a string to a number is the language's; whether the
    number a string converts to is at most 0 is taken as given. *)
Variable string_le_zero : string → bool.


End Methods.
End Rfq.

(** ** A reference codec

    An instance of the [Jws] interface on which the token functions can be
    evaluated: the token spells, in binary digits, the code of the payload
    paired with the key, and verification compares the key. *)

Module Codec.
Definition zero : Ascii.ascii := Eval cbv in Ascii.ascii_of_nat 48.
Definition one : Ascii.ascii := Eval cbv in Ascii.ascii_of_nat 49.

Fixpoint spell (p : positive) : string :=
  match p with
  | xH => EmptyString
  | xO p => String zero (spell p)
  | xI p => String one (spell p)
  end.

Fixpoint unspell (s : string) : option positive :=
  match s with
  | EmptyString => Some xH
  | String a s =>
      if Ascii.eqb a zero then xO <$> unspell s
      else if Ascii.eqb a one then xI <$> unspell s
      else None
  end.

Definition sign (payload : JSObject) (secret : string) : string :=
  spell (encode (payload, secret)).

Definition verify (clock : Z) (token secret : string) : VerifyError + JSObject :=
  match unspell token ≫= decode with
  | Some (payload, key) =>
      if decide (key = secret) then inr payload
      else inl (JsonWebTokenError "invalid signature")
  | None => inl (JsonWebTokenError "jwt malformed")
  end.

Definition jws : Jws.
Proof.
  refine {| jws_sign := sign; jws_verify := verify |}.
  intros clock payload secret _ _. unfold verify, sign.
  assert (Hspell : ∀ p, unspell (spell p) = Some p).
  { induction p as [p IH|p IH|]; simpl; rewrite ?IH; reflexivity. }
  rewrite Hspell. simpl. rewrite decode_encode.
  destruct (decide (secret = secret)); congruence.
Defined.
End Codec.

(** ** models/rfq.js: the methods on RFQ items that build their statement *)

Module RfqItem.
(** [UpdateRfqItems setCols idVarIdx] is
    [UPDATE rfq_items SET ${setCols} WHERE id = ${idVarIdx} RETURNING ...]. *)
Inductive Statement : Type :=
| UpdateRfqItems (setCols idVarIdx : string).

Section Methods.
(** The string conversion of a template literal's substitution. *)
Variable ToString : JSVal → string.

(** [updateRfqItem(id, data)].  The [catch] of the method logs the error
    and throws it again. *)
Definition updateRfqItem (id : JSVal) (data : list (string * JSVal)) : Db Statement JSObject :=
  match Sql.sqlForPartialUpdate data {[ "quantity" := "quantity" ]} with
  | inl err => Throw (Express err)
  | inr r =>
      let idVarIdx := "$" +:+ pretty (length (Sql.values r) + 1)%nat in
      await result ← query (UpdateRfqItems (Sql.setCols r) idVarIdx) (Sql.values r ++ [id])%list;
      match head result with
      | Some rfqItem => Ret rfqItem
      | None => Throw (Express (NotFoundError ("No RFQ Item: " +:+ ToString id)))
      end
  end.
End Methods.
End RfqItem.

(** ** models/rfq.js: listing, counting and reading RFQs *)

Module Rfqs.
(** The conditions are the pieces appended to the fixed text of the select,
    in the order they are appended. *)
Inductive Statement : Type :=
| SelectRfqs (conditions : list string)
| SelectRfq.

Inductive CountStatement : Type :=
| CountRfqs (conditions : list string).

(** One [if (value) { query += ...; queryValues.push(value) }] step. *)
Definition add_filter (condition : string) (value : JSVal)
    (acc : list string * list JSVal) : list string * list JSVal :=
  let '(query, queryValues) := acc in
  if truthy value
  then ((query ++ [condition +:+ pretty (length queryValues + 1)%nat])%list,
        (queryValues ++ [value])%list)
  else (query, queryValues).

(** [findAll(searchFilters)] *)
Definition findAll (searchFilters : JSObject) : Db Statement (list JSObject) :=
  let companyId := get searchFilters "companyId" in
  let userId := get searchFilters "userId" in
  let rfqNumber := get searchFilters "rfqNumber" in
  let acc := ([], []) in
  let acc := add_filter " AND rfqs.company_id = $" companyId acc in
  let acc := add_filter " AND rfqs.user_id = $" userId acc in
  let acc := add_filter " AND rfqs.rfq_number = $" rfqNumber acc in
  await rfqsRes ← query (SelectRfqs acc.1) acc.2;
  Ret rfqsRes.

Definition count_query (userId companyId : JSVal) : list string * list JSVal :=
  let acc := ([], []) in
  let acc := add_filter " AND user_id = $" userId acc in
  add_filter " AND company_id = $" companyId acc.

(** [getRfqCount(userId, companyId)], run against the store: the [catch]
    of the method replaces whatever was thrown by one generic error. *)
Definition getRfqCount {St : Type}
    (exec : CountStatement → list JSVal → St → (string + list JSObject) * St)
    (userId companyId : JSVal) (s : St) : Outcome JSVal * St :=
  let '(query, queryParams) := count_query userId companyId in
  match exec (CountRfqs query) queryParams s with
  | (inr rows, s') =>
      (Resolved (match rows with row :: _ => get row "count" | [] => JNum 0 end), s')
  | (inl _, s') => (Rejected (Other "Error fetching RFQ count."), s')
  end.

(** The handler of [GET /rfqs/count], after its guard: the count, or the
    error handed to [next]. *)
Definition count_route {St : Type}
    (exec : CountStatement → list JSVal → St → (string + list JSObject) * St)
    (req_query : JSObject) (s : St) : Outcome JSVal * St :=
  let userId := get req_query "userId" in
  let companyId := get req_query "companyId" in
  if negb (truthy userId) && negb (truthy companyId)
  then (Rejected (Express (BadRequestError "Either userId or companyId is required")), s)
  else getRfqCount exec userId companyId s.

(** The result of [get]: the RFQ's own fields and its nested items. *)
Record RfqWithItems : Type := mkRfqWithItems { details : JSObject; rfqItems : list JSObject }.

(** The callback of [rfqRes.rows.filter(...).map(...)]. *)
Definition rfqItem_of (row : JSObject) : JSObject :=
  {[ "id" := get row "rfq_item_id";
     "itemCode" := get row "item_code";
     "quantity" := get row "quantity";
     "itemCost" := get row "itemCost";
     "itemUom" := get row "itemUom";
     "itemDescription" := get row "itemDescription" ]}.

(** The rest pattern
    [{ rfq_item_id, itemCode, itemCost, itemUom, itemDescription, ...rfqDetails }]. *)
Definition rfqDetails_of (rfq : JSObject) : JSObject :=
  delete "itemDescription"
    (delete "itemUom" (delete "itemCost" (delete "itemCode" (delete "rfq_item_id" rfq)))).

Section Get.
Variable ToString : JSVal → string.

(** [get(id)] *)
Definition get_rfq (id : JSVal) : Db Statement RfqWithItems :=
  await rfqRes ← query SelectRfq [id];
  match head rfqRes with
  | None => Throw (Express (NotFoundError ("No RFQ: " +:+ ToString id)))
  | Some rfq =>
      let rfqItems :=
        rfqItem_of <$> filter (λ row, truthy (get row "rfq_item_id") = true) rfqRes in
      Ret {| details := rfqDetails_of rfq; rfqItems := rfqItems |}
  end.
End Get.
End Rfqs.

(** ** models/item.js *)

Module Item.
(** [UpdateCompanyItems setCols i j] is
    [UPDATE company_items SET ${setCols} WHERE company_id = $i AND item_code = $j
     RETURNING ...], the two numbers as they are printed into the text. *)
Inductive Statement : Type :=
| UpdateCompanyItems (setCols companyIdx itemCodeIdx : string).

Section Methods.
Variable ToString : JSVal → string.

(** [update(companyId, itemCode, data)] *)
Definition update (companyId itemCode : JSVal) (data : list (string * JSVal))
    : Db Statement JSObject :=
  match Sql.sqlForPartialUpdate data
          {[ "description" := "description"; "uom" := "uom"; "cost" := "cost" ]} with
  | inl err => Throw (Express err)
  | inr r =>
      let values := Sql.values r in
      await result ←
        query (UpdateCompanyItems (Sql.setCols r)
                 (pretty (length values + 1)%nat) (pretty (length values + 2)%nat))
              (values ++ [companyId; itemCode])%list;
      match head result with
      | Some item => Ret item
      | None =>
          Throw (Express (NotFoundError
            ("No item: " +:+ ToString itemCode +:+ " for company: " +:+ ToString companyId)))
      end
  end.
End Methods.
End Item.

(** ** models/user.js: registration and update *)

Module Users.
Inductive RegisterStatement : Type := SelectEmail | InsertUser.

(** [UpdateUsers setCols idIdx] is
    [UPDATE users SET ${setCols} WHERE id = ${idIdx} RETURNING ...];
    [SelectCompany] reads the company of the updated user. *)
Inductive UpdateStatement : Type :=
| UpdateUsers (setCols idIdx : string)
| SelectCompany.

(** The destructured argument of [register]. *)
Record RegisterData : Type := mkRegisterData {
  email : JSVal;
  password : JSVal;
  fullName : JSVal;
  phone : JSVal;
  isAdmin : JSVal;
  companyId : JSVal
}.

(** The updated user, with the company attached to it when there is one. *)
Record UpdatedUser : Type := mkUpdatedUser { fields : JSObject; company : option JSObject }.

(** Property read [data.k] on an object kept as its sequence of properties. *)
Definition field (data : list (string * JSVal)) (k : string) : JSVal :=
  default JUndefined (snd <$> head (filter (λ kv, kv.1 = k) data)).

(** Assignment [data.k = v]: an existing property keeps its place, a new
    one comes last. *)
Definition assign (k : string) (v : JSVal) (data : list (string * JSVal))
    : list (string * JSVal) :=
  if decide (k ∈ data.*1)
  then (λ kv, if decide (kv.1 = k) then (k, v) else kv) <$> data
  else (data ++ [(k, v)])%list.

(** How the store answers the duplicate check of [register] from the
    [users] table; [insert] is its answer to the insert. *)
Definition exec_register
    (insert : list JSVal → list User.Row → (string + list JSObject) * list User.Row)
    (q : RegisterStatement) (args : list JSVal) (users : list User.Row)
    : (string + list JSObject) * list User.Row :=
  match q, args with
  | SelectEmail, [e] =>
      (inr ((λ r, {[ "email" := JStr (User.email r) ]}) <$> User.with_email e users), users)
  | SelectEmail, _ => (inl "bind message supplies the wrong number of parameters", users)
  | InsertUser, _ => insert args users
  end.

Section Methods.
Variable ToString : JSVal → string.
(** [bcrypt.hash(data, BCRYPT_WORK_FACTOR)]: resolves to the hash, or
    rejects ([None]) on data it does not accept. *)
Variable bcrypt_hash : JSVal → option string.

(** [register({ email, password, fullName, phone = null, isAdmin, companyId })] *)
Definition register (d : RegisterData) : Db RegisterStatement (option JSObject) :=
  let phone := if decide (phone d = JUndefined) then JNull else phone d in
  await duplicateCheck ← query SelectEmail [email d];
  match head duplicateCheck with
  | Some _ => Throw (Express (BadRequestError ("Duplicate email: " +:+ ToString (email d))))
  | None =>
      match bcrypt_hash (password d) with
      | None => Throw (Other "bcrypt")
      | Some hashedPassword =>
          await result ←
            query InsertUser
              [email d; JStr hashedPassword; fullName d; phone; isAdmin d; companyId d];
          Ret (head result)
      end
  end.

(** The part of [update] that follows the hashing of the password. *)
Definition update_row (id : JSVal) (data : list (string * JSVal))
    : Db UpdateStatement UpdatedUser :=
  match Sql.sqlForPartialUpdate data
          {[ "email" := "email"; "fullName" := "full_name"; "phone" := "phone" ]} with
  | inl err => Throw (Express err)
  | inr r =>
      let idIdx := "$" +:+ pretty (length (Sql.values r) + 1)%nat in
      await result ← query (UpdateUsers (Sql.setCols r) idIdx) (Sql.values r ++ [id])%list;
      match head result with
      | None => Throw (Express (NotFoundError ("No user with id of: " +:+ ToString id)))
      | Some user =>
          await companyRes ← query SelectCompany [get user "companyId"];
          Ret {| fields := delete "password" user; company := head companyRes |}
      end
  end.

(** [update(id, data)]: the caller's [data] as the call leaves it, and the
    program run on it. *)
Definition update (id : JSVal) (data : list (string * JSVal))
    : list (string * JSVal) * Db UpdateStatement UpdatedUser :=
  if truthy (field data "password") then
    match bcrypt_hash (field data "password") with
    | Some hashed =>
        let data := assign "password" (JStr hashed) data in
        (data, update_row id data)
    | None => (data, Throw (Other "bcrypt"))
    end
  else (data, update_row id data).
End Methods.
End Users.

(** ** routes *)

Module Routes.

Section Auth.
Context `{Jws}.
Variable SECRET_KEY : string.
Variable bcrypt_compare : JSVal → JSVal → option bool.

(** The handler of [POST /auth/token] at clock reading [now]: the token of
    the response; what is thrown goes to [next]. *)
Definition post_token (now : Z) (body : JSObject) : Db User.Statement string :=
  let email := get body "email" in
  let password := get body "password" in
  await user ← User.authenticate bcrypt_compare email password;
  Ret (createToken SECRET_KEY now user).1.
End Auth.

Section Register.
Context `{Jws}.
Variable SECRET_KEY : string.
Variable ToString : JSVal → string.
Variable bcrypt_hash : JSVal → option string.

(** The handler of [POST /auth/register] at clock reading [now]: the
    status and the token of the response.  The argument of the model is
    [{ ...req.body, phone: null, isAdmin: false }]; [createToken] throws a
    TypeError on the [undefined] of an insert that returned no row. *)
Definition post_register (now : Z) (body : JSObject)
    : Db Users.RegisterStatement (Z * string) :=
  let data : JSObject := <["isAdmin" := JBool false]> (<["phone" := JNull]> body) in
  await newUser ←
    Users.register ToString bcrypt_hash
      (Users.mkRegisterData (get data "email") (get data "password") (get data "fullName")
         (get data "phone") (get data "isAdmin") (get data "companyId"));
  match newUser with
  | Some newUser => Ret (201, (createToken SECRET_KEY now newUser).1)
  | None => Throw (Other "TypeError")
  end.
End Register.
End Routes.

(** * Properties *)

(** ** Partial-update builder *)

Lemma sqlForPartialUpdate_nonempty {V : Type} (kv : string * V) (rest : list (string * V))
    (jsToSql : gmap string string) :
  Sql.sqlForPartialUpdate (kv :: rest) jsToSql
  = inr (Sql.mkSetClause (join ", " (Sql.cols (kv :: rest) jsToSql))
                         (Sql.Object_values (kv :: rest))).
Proof. reflexivity. Qed.

Lemma cols_lookup {V : Type} (dataToUpdate : list (string * V))
    (jsToSql : gmap string string) (i : nat) (k : string) (v : V) :
  dataToUpdate !! i = Some (k, v) →
  Sql.cols dataToUpdate jsToSql !! i = Some (Sql.fragment jsToSql i k).
Proof.
  intros Hi. unfold Sql.cols, Sql.Object_keys.
  rewrite list_lookup_imap, list_lookup_fmap, Hi. reflexivity.
Qed.

Lemma column_absent (jsToSql : gmap string string) (k : string) :
  jsToSql !! k = None → Object_prototype !! k = None → Sql.column jsToSql k = k.
Proof. intros Hk Hp. unfold Sql.column. by rewrite Hk, Hp. Qed.

(** C5: [sqlForPartialUpdate] signals a Bad-Request failure exactly when the
    fields-to-update mapping has no entry; on every non-empty mapping it
    returns a result, whatever the type of the values and whatever the
    field and column names are. *)
Theorem sqlForPartialUpdate_rejects_only_empty :
  ∀ (V : Type) (dataToUpdate : list (string * V)) (jsToSql : gmap string string),
    ((∃ e, Sql.sqlForPartialUpdate dataToUpdate jsToSql = inl e)
       ↔ length dataToUpdate = 0%nat)
    ∧ (Sql.sqlForPartialUpdate dataToUpdate jsToSql = inl (BadRequestError "No data")
       ↔ length dataToUpdate = 0%nat)
    ∧ ((∃ r, Sql.sqlForPartialUpdate dataToUpdate jsToSql = inr r)
       ↔ length dataToUpdate ≠ 0%nat).
Proof.
  intros V [|kv rest] jsToSql.
  - repeat split; try done; try (intros _; by eexists).
    intros [r Hr]. discriminate Hr.
  - rewrite sqlForPartialUpdate_nonempty. repeat split; try done.
    + intros [e He]. discriminate He.
    + intros _. by eexists.
Qed.

Global Instance index_le_total {V : Type} : Total (@Sql.index_le V).
Proof. intros kv1 kv2. unfold Sql.index_le. lia. Qed.

Lemma filter_all {A : Type} (P : A → Prop) `{∀ x, Decision (P x)} (l : list A) :
  Forall P l → filter P l = l.
Proof.
  induction 1 as [|x l Hx _ IH]; [done|]. by rewrite filter_cons_True, IH.
Qed.

Lemma filter_nothing {A : Type} (P : A → Prop) `{∀ x, Decision (P x)} (l : list A) :
  Forall (λ x, ¬ P x) l → filter P l = [].
Proof.
  induction 1 as [|x l Hx _ IH]; [done|]. by rewrite filter_cons_False.
Qed.

(** Without array indices among the names, the properties are enumerated
    in the order of their creation. *)
Lemma own_property_order_no_index {V : Type} (created : list (string * V)) :
  Forall (λ kv, array_index kv.1 = None) created →
  Sql.own_property_order created = created.
Proof.
  intros Hnone. unfold Sql.own_property_order.
  rewrite filter_nothing, filter_all; [done..|].
  eapply Forall_impl; [exact Hnone|]. simpl. intros kv -> [n Hn]. discriminate Hn.
Qed.

(** The claim of C6 as the specification words it fails in two ways: the
    fields are not always walked in insertion order, and a field absent
    from the name map does not always use its own name. *)
Lemma sqlForPartialUpdate_order_and_inherited :
  ¬ (∀ created : list (string * JSVal),
       Sql.Object_keys (Sql.own_property_order created) = created.*1)
  ∧ ¬ (∀ (jsToSql : gmap string string) (k : string),
         jsToSql !! k = None → Sql.column jsToSql k = k).
Proof.
  split.
  - intros Hclaim. specialize (Hclaim [("b", JNum 1); ("1", JNum 2)]).
    vm_compute in Hclaim. discriminate Hclaim.
  - intros Hclaim. specialize (Hclaim ∅ "constructor" (lookup_empty _)).
    vm_compute in Hclaim. discriminate Hclaim.
Qed.

(** C6 (amended): on a non-empty mapping the builder walks the fields in
    the enumeration order of the object; the fragment at position N
    (counted from 1) assigns to positional parameter $N, the value at
    position N of the returned values is the one of that field, and a field
    that is absent from the name map and is not a name inherited from
    [Object.prototype] is its own column name.  The enumeration order is
    the insertion order when no field name is an array index; in general
    the array indices come first, in ascending order, and the other names
    follow in insertion order.  On the example of the documentation the
    result is ["first_name"=$1, "age"=$2] with values ['Aliya', 32]. *)
Theorem sqlForPartialUpdate_positional :
  (∀ (V : Type) (dataToUpdate : list (string * V)) (jsToSql : gmap string string),
     dataToUpdate ≠ [] →
     ∃ r, Sql.sqlForPartialUpdate dataToUpdate jsToSql = inr r
       ∧ Sql.setCols r = join ", " (Sql.cols dataToUpdate jsToSql)
       ∧ length (Sql.cols dataToUpdate jsToSql) = length dataToUpdate
       ∧ length (Sql.values r) = length dataToUpdate
       ∧ ∀ (i : nat) (k : string) (v : V),
           dataToUpdate !! i = Some (k, v) →
           Sql.cols dataToUpdate jsToSql !! i
             = Some (dquote +:+ Sql.column jsToSql k +:+ dquote +:+ "=$" +:+ pretty (S i))
           ∧ Sql.values r !! i = Some v
           ∧ (jsToSql !! k = None → Object_prototype !! k = None →
              Sql.column jsToSql k = k))
  ∧ (∀ (V : Type) (created : list (string * V)),
       (Forall (λ kv, array_index kv.1 = None) created →
        Sql.own_property_order created = created)
       ∧ ∃ indices : list (string * V),
           Sql.own_property_order created
           = (indices ++ filter (λ kv, array_index kv.1 = None) created)%list
           ∧ indices ≡ₚ filter (λ kv, is_Some (array_index kv.1)) created
           ∧ Sorted Sql.index_le indices)
  ∧ Sql.sqlForPartialUpdate
      (Sql.own_property_order [("firstName", JStr "Aliya"); ("age", JNum 32)])
      {[ "firstName" := "first_name" ]}
    = inr (Sql.mkSetClause
             (dquote +:+ "first_name" +:+ dquote +:+ "=$1, "
                +:+ dquote +:+ "age" +:+ dquote +:+ "=$2")
             [JStr "Aliya"; JNum 32]).
Proof.
  split; [|split; [|vm_compute; reflexivity]].
  - intros V [|kv rest] jsToSql Hne; [done|].
    eexists. split; [apply sqlForPartialUpdate_nonempty|].
    cbn [Sql.setCols Sql.values].
    split; [reflexivity|].
    split; [unfold Sql.cols, Sql.Object_keys; by rewrite length_imap, length_fmap|].
    split; [unfold Sql.Object_values; by rewrite length_fmap|].
    intros i k v Hi. split; [|split].
    + rewrite (cols_lookup _ _ _ _ _ Hi). unfold Sql.fragment.
      by rewrite Nat.add_1_r.
    + unfold Sql.Object_values. by rewrite list_lookup_fmap, Hi.
    + apply column_absent.
  - intros V created. split; [apply own_property_order_no_index|].
    eexists. split; [reflexivity|]. split.
    + apply merge_sort_Permutation.
    + apply (Sorted_merge_sort _).
Qed.

Lemma sqlForPartialUpdate_positional_witness :
  ∃ r, Sql.sqlForPartialUpdate [("quantity", JNum 5)] (∅ : gmap string string) = inr r
    ∧ Sql.values r !! 0%nat = Some (JNum 5)
    ∧ Sql.column ∅ "quantity" = "quantity".
Proof.
  destruct (proj1 sqlForPartialUpdate_positional JSVal [("quantity", JNum 5)] ∅)
    as (r & Hr & _ & _ & _ & Hpos); [discriminate|].
  exists r. split; [exact Hr|].
  destruct (Hpos 0%nat "quantity" (JNum 5)) as (_ & Hval & Hcol); [reflexivity|].
  split; [exact Hval|]. apply Hcol; reflexivity.
Defined.

(** ** Token service *)

Section TokenFacts.
Context `{Jws}.
Variable SECRET_KEY : string.

(** The [user] object as [createToken] leaves it. *)
Lemma createToken_user (now : Z) (user : JSObject) :
  (createToken SECRET_KEY now user).2
  = if decide (get user "isAdmin" = JUndefined)
    then <["isAdmin" := JBool false]> user else user.
Proof. reflexivity. Qed.

(** The claim a token of [createToken] verifies to, at any later clock. *)
Lemma createToken_verifies (now clock : Z) (user : JSObject) :
  ∃ claim : JSObject,
    Jwt.verify clock (createToken SECRET_KEY now user).1 SECRET_KEY = inr claim
    ∧ claim !! "iat" = Some (JNum (Jwt.seconds now))
    ∧ (js_or (get (createToken SECRET_KEY now user).2 "isAdmin") (JBool false) ≠ JUndefined →
       claim !! "isAdmin"
       = Some (js_or (get (createToken SECRET_KEY now user).2 "isAdmin") (JBool false))).
Proof.
  unfold createToken, Jwt.verify, Jwt.sign. cbn [fst snd].
  set (user' := if decide (get user "isAdmin" = JUndefined) then _ else _).
  eexists. split; [|split].
  - apply jws_verify_sign; unfold Jwt.json;
      apply map_lookup_filter_None; left; by simplify_map_eq.
  - unfold Jwt.json. apply map_lookup_filter_Some. by simplify_map_eq.
  - intros Hdef. unfold Jwt.json. apply map_lookup_filter_Some.
    split; [by simplify_map_eq | exact Hdef].
Qed.

Lemma js_or_false_defined (v : JSVal) : js_or v (JBool false) ≠ JUndefined.
Proof. unfold js_or. by destruct v; simpl; try case_match. Qed.
End TokenFacts.

(** C2: the token of [createToken] verifies, and the [isAdmin] of the
    verified claim is [false] when the user record has no [isAdmin] or a
    falsy one, and is the given boolean when the record carries [true] or
    [false]. *)
Theorem createToken_isAdmin :
  ∀ (J : Jws) (SECRET_KEY : string) (now clock : Z) (user : JSObject),
    ∃ claim : JSObject,
      Jwt.verify clock (createToken SECRET_KEY now user).1 SECRET_KEY = inr claim
      ∧ (user !! "isAdmin" = None → claim !! "isAdmin" = Some (JBool false))
      ∧ (∀ v, user !! "isAdmin" = Some v → truthy v = false →
              claim !! "isAdmin" = Some (JBool false))
      ∧ (∀ b : bool, user !! "isAdmin" = Some (JBool b) →
              claim !! "isAdmin" = Some (JBool b)).
Proof.
  intros J SECRET_KEY now clock user.
  destruct (createToken_verifies SECRET_KEY now clock user) as (claim & Hv & _ & Hadm).
  specialize (Hadm (js_or_false_defined _)).
  exists claim. split; [exact Hv|]. rewrite createToken_user in Hadm.
  split; [|split].
  - intros Hnone.
    assert (Hg : get user "isAdmin" = JUndefined) by (unfold get; by rewrite Hnone).
    rewrite Hadm, decide_True by done. unfold get. by rewrite lookup_insert_eq.
  - intros v Hsome Hfalsy.
    assert (Hg : get user "isAdmin" = v) by (unfold get; by rewrite Hsome).
    rewrite Hadm. case_decide as Hund.
    + unfold get. by rewrite lookup_insert_eq.
    + rewrite Hg. unfold js_or. by rewrite Hfalsy.
  - intros b Hsome.
    assert (Hg : get user "isAdmin" = JBool b) by (unfold get; by rewrite Hsome).
    rewrite Hadm, decide_False by (by rewrite Hg). rewrite Hg. by destruct b.
Qed.

Lemma createToken_isAdmin_witness :
  ∃ claim : JSObject,
    Jwt.verify (H := Codec.jws) 5000
      (createToken (H := Codec.jws) "secret-dev" 1000 {[ "id" := JNum 1 ]}).1 "secret-dev"
    = inr claim
    ∧ claim !! "isAdmin" = Some (JBool false).
Proof.
  destruct (createToken_isAdmin Codec.jws "secret-dev" 1000 5000 {[ "id" := JNum 1 ]})
    as (claim & Hv & Hnone & _).
  exists claim. split; [exact Hv|]. apply Hnone. reflexivity.
Defined.

(** Within one second the stamped payload is the same, and so is the token. *)
Lemma createToken_same_second `{Jws} (SECRET_KEY : string) (user : JSObject) (t1 t2 : Z) :
  Jwt.seconds t1 = Jwt.seconds t2 →
  (createToken SECRET_KEY t1 user).1 = (createToken SECRET_KEY t2 user).1.
Proof. intros Hsec. unfold createToken, Jwt.sign. cbn [fst]. by rewrite Hsec. Qed.

(** The claim of C7 as the specification words it, with the clock read in
    milliseconds as [Date.now()] gives it: two calls at different times
    yield different tokens, both of which verify.  It fails for the clock
    readings 1000 and 1001. *)
Lemma createToken_same_second_same_token :
  ¬ (∀ (J : Jws) (SECRET_KEY : string) (user : JSObject) (t1 t2 clock : Z),
       t1 ≠ t2 →
       (createToken SECRET_KEY t1 user).1 ≠ (createToken SECRET_KEY t2 user).1
       ∧ (∃ claim, Jwt.verify clock (createToken SECRET_KEY t1 user).1 SECRET_KEY = inr claim)
       ∧ (∃ claim, Jwt.verify clock (createToken SECRET_KEY t2 user).1 SECRET_KEY = inr claim)).
Proof.
  intros Hclaim.
  destruct (Hclaim Codec.jws "secret-dev" {[ "id" := JNum 1 ]} 1000 1001 2000)
    as [Hdiff _]; [lia|].
  apply Hdiff, createToken_same_second. reflexivity.
Qed.

(** C7 (amended): two calls with the same user record whose clock readings
    fall in different whole seconds produce different tokens, and both
    tokens verify against the same secret. *)
Theorem createToken_distinct_seconds :
  ∀ (J : Jws) (SECRET_KEY : string) (user : JSObject) (t1 t2 clock : Z),
    Jwt.seconds t1 ≠ Jwt.seconds t2 →
    (createToken SECRET_KEY t1 user).1 ≠ (createToken SECRET_KEY t2 user).1
    ∧ (∃ claim, Jwt.verify clock (createToken SECRET_KEY t1 user).1 SECRET_KEY = inr claim)
    ∧ (∃ claim, Jwt.verify clock (createToken SECRET_KEY t2 user).1 SECRET_KEY = inr claim).
Proof.
  intros J SECRET_KEY user t1 t2 clock Hsec.
  destruct (createToken_verifies SECRET_KEY t1 clock user) as (c1 & Hv1 & Hiat1 & _).
  destruct (createToken_verifies SECRET_KEY t2 clock user) as (c2 & Hv2 & Hiat2 & _).
  split; [|split; by eexists].
  intros Heq. rewrite Heq, Hv2 in Hv1.
  injection Hv1 as ->. rewrite Hiat1 in Hiat2. congruence.
Qed.

Lemma createToken_distinct_seconds_witness :
  (createToken (H := Codec.jws) "secret-dev" 1000 {[ "id" := JNum 1 ]}).1
  ≠ (createToken (H := Codec.jws) "secret-dev" 2000 {[ "id" := JNum 1 ]}).1.
Proof.
  apply (createToken_distinct_seconds Codec.jws "secret-dev" {[ "id" := JNum 1 ]}
           1000 2000 2000).
  vm_compute. discriminate.
Defined.

(** The claim of C8 as the specification words it: the call leaves the
    caller's user record as it was. *)
Lemma createToken_adds_isAdmin :
  ¬ (∀ (J : Jws) (SECRET_KEY : string) (now : Z) (user : JSObject),
       (createToken SECRET_KEY now user).2 = user).
Proof.
  intros Hclaim.
  specialize (Hclaim Codec.jws "secret-dev" 1000 {[ "id" := JNum 1 ]}).
  rewrite createToken_user in Hclaim.
  apply (f_equal (λ o : JSObject, o !! "isAdmin")) in Hclaim.
  vm_compute in Hclaim. discriminate Hclaim.
Qed.

(** C8 (amended): [createToken] leaves the user record unchanged when its
    [isAdmin] is defined; when [isAdmin] is absent or undefined the call
    sets it to [false] on the record; no other field is added or
    modified. *)
Theorem createToken_frame :
  ∀ (J : Jws) (SECRET_KEY : string) (now : Z) (user : JSObject),
    (get user "isAdmin" ≠ JUndefined → (createToken SECRET_KEY now user).2 = user)
    ∧ (get user "isAdmin" = JUndefined →
       (createToken SECRET_KEY now user).2 = <["isAdmin" := JBool false]> user)
    ∧ (∀ k : string, k ≠ "isAdmin" →
       (createToken SECRET_KEY now user).2 !! k = user !! k).
Proof.
  intros J SECRET_KEY now user. rewrite createToken_user.
  split; [|split].
  - intros Hdef. by rewrite decide_False.
  - intros Hund. by rewrite decide_True.
  - intros k Hk. case_decide; [|done]. by rewrite lookup_insert_ne.
Qed.

Lemma createToken_frame_witness :
  (createToken (H := Codec.jws) "secret-dev" 1000
     {[ "id" := JNum 1; "isAdmin" := JBool true ]}).2
  = {[ "id" := JNum 1; "isAdmin" := JBool true ]}.
Proof.
  apply (createToken_frame Codec.jws "secret-dev" 1000
           {[ "id" := JNum 1; "isAdmin" := JBool true ]}).
  vm_compute. discriminate.
Defined.

(** ** Auth middleware *)

(** C1: [authenticateJWT] always calls onward without an error.  Without an
    [Authorization] header, and with a header whose token fails
    verification, whatever the failure, the identity slot is left as it
    was (empty on a fresh request), and the outcome of a failed
    verification is the outcome of the same request without the header. *)
Theorem authenticateJWT_never_rejects :
  ∀ (J : Jws) (SECRET_KEY : string) (now : Z) (req : Request) (locals : Locals),
    (authenticateJWT SECRET_KEY now req locals).2 = None
    ∧ (authorization req = None →
       (authenticateJWT SECRET_KEY now req locals).1 = locals)
    ∧ (∀ (header : string) (failure : VerifyError),
         authorization req = Some header →
         Jwt.verify now (bearerToken header) SECRET_KEY = inl failure →
         (authenticateJWT SECRET_KEY now req locals).1 = locals
         ∧ authenticateJWT SECRET_KEY now req locals
           = authenticateJWT SECRET_KEY now (mkRequest None (owner req)) locals
         ∧ (user locals = None →
            user (authenticateJWT SECRET_KEY now req locals).1 = None)).
Proof.
  intros J SECRET_KEY now req locals. unfold authenticateJWT.
  split; [|split].
  - destruct (authorization req) as [header|]; [|done].
    by destruct (Jwt.verify _ _ _).
  - by intros ->.
  - intros header failure -> ->. by simpl.
Qed.

Lemma authenticateJWT_never_rejects_witness :
  authenticateJWT (H := Codec.jws) "secret-dev" 1000
    (mkRequest (Some "Bearer not.a.token") JUndefined) (mkLocals None)
  = authenticateJWT (H := Codec.jws) "secret-dev" 1000
    (mkRequest None JUndefined) (mkLocals None).
Proof.
  destruct (authenticateJWT_never_rejects Codec.jws "secret-dev" 1000
              (mkRequest (Some "Bearer not.a.token") JUndefined) (mkLocals None))
    as (_ & _ & Hfail).
  apply (Hfail "Bearer not.a.token" (JsonWebTokenError "jwt malformed"));
    reflexivity.
Defined.

(** C3: [ensureAdmin] calls onward without error exactly when an identity is
    present and its [isAdmin] flag is [true]; in every other case it
    signals the Unauthorized failure. *)
Theorem ensureAdmin_iff :
  ∀ locals : Locals,
    (ensureAdmin locals = None
     ↔ ∃ claim, user locals = Some claim ∧ get claim "isAdmin" = JBool true)
    ∧ (ensureAdmin locals = Some unauthorized
       ↔ ¬ ∃ claim, user locals = Some claim ∧ get claim "isAdmin" = JBool true)
    ∧ err_kind unauthorized = Unauthorized.
Proof.
  intros [[claim|]]; unfold ensureAdmin; simpl.
  - case_decide as Hadm; (split; [|split]); try done.
    + split; [intros _; by exists claim | done].
    + split; [done | intros []; by exists claim].
    + split; [done | by intros (c & [= <-] & Hc)].
    + split; [intros _; by intros (c & [= <-] & Hc) | done].
  - split; [|split]; try done.
    + split; [done | by intros (c & Hc & _)].
    + split; [intros _; by intros (c & Hc & _) | done].
Qed.

(** C4: [ensureLoggedIn] calls onward without error if and only if an
    identity is present, and whichever guard fails, for whichever reason,
    the failure is the same Unauthorized error. *)
Theorem guards_fail_unauthorized :
  ∀ (req : Request) (locals : Locals),
    (ensureLoggedIn locals = None ↔ is_Some (user locals))
    ∧ (∀ e : ExpressError,
         ensureLoggedIn locals = Some e
         ∨ ensureAdmin locals = Some e
         ∨ ensureCorrectUserOrAdmin req locals = Some e →
         e = unauthorized ∧ err_kind e = Unauthorized).
Proof.
  intros req [[claim|]];
    unfold ensureLoggedIn, ensureAdmin, ensureCorrectUserOrAdmin; simpl.
  - split; [split; [by eexists | done]|].
    intros e [He|[He|He]]; try done; case_decide; by simplify_eq.
  - split; [split; [done | by intros [? ?]]|].
    intros e [He|[He|He]]; by simplify_eq.
Qed.

Lemma guards_fail_unauthorized_witness :
  UnauthorizedError "Unauthorized" = unauthorized
  ∧ err_kind (UnauthorizedError "Unauthorized") = Unauthorized.
Proof.
  apply (proj2 (guards_fail_unauthorized (mkRequest None (JNum 2))
                  (mkLocals (Some {[ "id" := JNum 1; "isAdmin" := JBool false ]})))).
  right. left. reflexivity.
Defined.

(** ** Models *)

Lemma authenticate_run (bcrypt_compare : JSVal → JSVal → option bool)
    (users : list User.Row) (email password : JSVal) :
  run User.exec (User.authenticate bcrypt_compare email password) users
  = match head (User.with_email email users) with
    | Some r =>
        match bcrypt_compare password (JStr (User.password r)) with
        | Some true => (Resolved (delete "password" (User.selected r)), users)
        | Some false =>
            (Rejected (Express (UnauthorizedError "Invalid email/password")), users)
        | None => (Rejected (Other "bcrypt"), users)
        end
    | None => (Rejected (Express (UnauthorizedError "Invalid email/password")), users)
    end.
Proof.
  unfold User.authenticate. simpl.
  destruct (User.with_email email users) as [|r rest]; simpl; [done|].
  replace (get (User.selected r) "password") with (JStr (User.password r))
    by (unfold get, User.selected; by simplify_map_eq).
  by destruct (bcrypt_compare _ _) as [[]|].
Qed.

(** C9: [User.authenticate] signals the same Unauthorized error, with the
    message "Invalid email/password", when no user has the given email and
    when the password comparison fails; when it succeeds, the user record
    it returns is the selected row without its [password] field. *)
Theorem authenticate_unauthorized :
  ∀ (bcrypt_compare : JSVal → JSVal → option bool) (users : list User.Row)
    (email password : JSVal),
    (User.with_email email users = [] →
     run User.exec (User.authenticate bcrypt_compare email password) users
     = (Rejected (Express (UnauthorizedError "Invalid email/password")), users))
    ∧ (∀ (r : User.Row) (rest : list User.Row),
         User.with_email email users = r :: rest →
         bcrypt_compare password (JStr (User.password r)) = Some false →
         run User.exec (User.authenticate bcrypt_compare email password) users
         = (Rejected (Express (UnauthorizedError "Invalid email/password")), users))
    ∧ (∀ (r : User.Row) (rest : list User.Row),
         User.with_email email users = r :: rest →
         bcrypt_compare password (JStr (User.password r)) = Some true →
         ∃ u : JSObject,
           run User.exec (User.authenticate bcrypt_compare email password) users
           = (Resolved u, users)
           ∧ u !! "password" = None
           ∧ ∀ k : string, k ≠ "password" → u !! k = User.selected r !! k)
    ∧ err_kind (UnauthorizedError "Invalid email/password") = Unauthorized.
Proof.
  intros bcrypt_compare users email password. rewrite authenticate_run.
  split; [|split; [|split]]; [| | |done].
  - by intros ->.
  - intros r rest ->. simpl. by intros ->.
  - intros r rest ->. simpl. intros ->. eexists. split; [reflexivity|]. split.
    + apply lookup_delete_eq.
    + intros k Hk. by apply lookup_delete_ne.
Qed.

Lemma authenticate_unauthorized_witness :
  run User.exec
    (User.authenticate (λ data hash, Some (bool_decide (data = hash)))
       (JStr "u1@example.com") (JStr "wrong"))
    [User.mkRow 1 "u1@example.com" "password1" "User One" None false 1]
  = (Rejected (Express (UnauthorizedError "Invalid email/password")),
     [User.mkRow 1 "u1@example.com" "password1" "User One" None false 1]).
Proof.
  destruct (authenticate_unauthorized (λ data hash, Some (bool_decide (data = hash)))
              [User.mkRow 1 "u1@example.com" "password1" "User One" None false 1]
              (JStr "u1@example.com") (JStr "wrong")) as (_ & Hwrong & _).
  apply (Hwrong (User.mkRow 1 "u1@example.com" "password1" "User One" None false 1) []);
    reflexivity.
Defined.



(** * Further properties of the code *)

(** ** helpers/sql.js *)

Lemma string_app_assoc (s1 s2 s3 : string) : (s1 +:+ s2) +:+ s3 = s1 +:+ (s2 +:+ s3).
Proof.
  induction s1 as [|a s1 IH]; [reflexivity|].
  change (String a ((s1 +:+ s2) +:+ s3) = String a (s1 +:+ (s2 +:+ s3))).
  by rewrite IH.
Qed.

Lemma join_snoc (sep x : string) (l : list string) :
  l ≠ [] → join sep (l ++ [x])%list = join sep l +:+ sep +:+ x.
Proof.
  induction l as [|y l IH]; [done|]. intros _.
  destruct l as [|z l]; [done|].
  change (join sep ((y :: z :: l) ++ [x])%list)
    with (y +:+ sep +:+ join sep ((z :: l) ++ [x])%list).
  rewrite IH by done.
  change (join sep (y :: z :: l)) with (y +:+ sep +:+ join sep (z :: l)).
  by rewrite !string_app_assoc.
Qed.

Lemma cols_ext {V : Type} (dataToUpdate : list (string * V)) (m m' : gmap string string) :
  (∀ k, k ∈ dataToUpdate.*1 → Sql.column m k = Sql.column m' k) →
  Sql.cols dataToUpdate m = Sql.cols dataToUpdate m'.
Proof.
  intros Hagree. unfold Sql.cols, Sql.Object_keys. apply imap_ext.
  intros i k Hk. unfold Sql.fragment. rewrite (Hagree k); [done|].
  by eapply list_elem_of_lookup_2.
Qed.

Lemma sqlForPartialUpdate_cols_ext {V : Type} (dataToUpdate : list (string * V))
    (m m' : gmap string string) :
  Sql.cols dataToUpdate m = Sql.cols dataToUpdate m' →
  Sql.sqlForPartialUpdate dataToUpdate m = Sql.sqlForPartialUpdate dataToUpdate m'.
Proof. intros Hcols. unfold Sql.sqlForPartialUpdate. by rewrite Hcols. Qed.

(** Entries that map a name to itself, or to the empty string, under names
    that are not inherited, leave the column of every field as it is under
    the empty map. *)
Lemma column_identity (m : gmap string string) (k : string) :
  (∀ k c, m !! k = Some c →
          (c = k ∨ c = EmptyString) ∧ Object_prototype !! k = None) →
  Sql.column m k = Sql.column ∅ k.
Proof.
  intros Hid. unfold Sql.column. rewrite lookup_empty.
  destruct (m !! k) as [c|] eqn:Hk; [|done].
  destruct (Hid k c Hk) as [[->| ->] ->]; [|done].
  by destruct (String.eqb k EmptyString).
Qed.

(** X1: the builder reads the name map only at the fields to update: two
    name maps that give the same column for each of these fields give the
    same result. *)
Theorem sqlForPartialUpdate_name_map_frame :
  ∀ (V : Type) (dataToUpdate : list (string * V)) (m m' : gmap string string),
    (∀ k, k ∈ dataToUpdate.*1 → Sql.column m k = Sql.column m' k) →
    Sql.sqlForPartialUpdate dataToUpdate m = Sql.sqlForPartialUpdate dataToUpdate m'.
Proof.
  intros V dataToUpdate m m' Hagree.
  by apply sqlForPartialUpdate_cols_ext, cols_ext.
Qed.

Lemma sqlForPartialUpdate_name_map_frame_witness :
  Sql.sqlForPartialUpdate [("quantity", JNum 3)] {[ "uom" := "unit" ]}
  = Sql.sqlForPartialUpdate [("quantity", JNum 3)] (∅ : gmap string string).
Proof.
  apply (sqlForPartialUpdate_name_map_frame JSVal [("quantity", JNum 3)]
           {[ "uom" := "unit" ]} ∅).
  intros k Hk. apply list_elem_of_singleton in Hk as ->. reflexivity.
Defined.

(** X2: an entry of the name map that maps a field to itself, or to the
    empty string, under a name that is not inherited from
    [Object.prototype], changes nothing: a name map made of such entries,
    as the ones the RFQ and item models pass, builds what the empty map
    builds. *)
Theorem sqlForPartialUpdate_identity_map :
  ∀ (V : Type) (dataToUpdate : list (string * V)) (m : gmap string string),
    (∀ k c, m !! k = Some c →
            (c = k ∨ c = EmptyString) ∧ Object_prototype !! k = None) →
    Sql.sqlForPartialUpdate dataToUpdate m = Sql.sqlForPartialUpdate dataToUpdate ∅.
Proof.
  intros V dataToUpdate m Hid.
  apply sqlForPartialUpdate_cols_ext, cols_ext. intros k _.
  by apply column_identity.
Qed.

Lemma sqlForPartialUpdate_identity_map_witness :
  Sql.sqlForPartialUpdate [("quantity", JNum 3)] {[ "quantity" := "quantity" ]}
  = Sql.sqlForPartialUpdate [("quantity", JNum 3)] (∅ : gmap string string).
Proof.
  apply (sqlForPartialUpdate_identity_map JSVal [("quantity", JNum 3)]
           {[ "quantity" := "quantity" ]}).
  intros k c Hk. apply lookup_singleton_Some in Hk as [<- <-].
  split; [by left | reflexivity].
Defined.

Lemma cols_snoc {V : Type} (dataToUpdate : list (string * V)) (m : gmap string string)
    (k : string) (v : V) :
  Sql.cols (dataToUpdate ++ [(k, v)])%list m
  = (Sql.cols dataToUpdate m ++ [Sql.fragment m (length dataToUpdate) k])%list.
Proof.
  unfold Sql.cols, Sql.Object_keys.
  rewrite fmap_app, imap_app, length_fmap. simpl. by rewrite Nat.add_0_r.
Qed.

(** X3: adding one more field to a mapping that the builder accepts keeps
    the fragments and values built so far and appends one fragment, whose
    positional parameter is the number of values so far plus one, and one
    value. *)
Theorem sqlForPartialUpdate_snoc :
  ∀ (V : Type) (dataToUpdate : list (string * V)) (m : gmap string string)
    (r : Sql.SetClause) (k : string) (v : V),
    Sql.sqlForPartialUpdate dataToUpdate m = inr r →
    Sql.sqlForPartialUpdate (dataToUpdate ++ [(k, v)])%list m
    = inr {| Sql.setCols :=
               Sql.setCols r +:+ ", " +:+ dquote +:+ Sql.column m k +:+ dquote +:+ "=$"
                 +:+ pretty (length (Sql.values r) + 1)%nat;
             Sql.values := (Sql.values r ++ [v])%list |}.
Proof.
  intros V dataToUpdate m r k v Hr. unfold Sql.sqlForPartialUpdate in *.
  destruct (decide (length (Sql.Object_keys dataToUpdate) = 0%nat)) as [|Hne];
    [discriminate Hr|].
  injection Hr as <-. cbn [Sql.setCols Sql.values].
  rewrite decide_False
    by (unfold Sql.Object_keys; rewrite length_fmap, length_app; simpl; lia).
  f_equal. f_equal.
  - rewrite cols_snoc, join_snoc.
    + unfold Sql.fragment, Sql.Object_values. by rewrite length_fmap.
    + intros Hnil. apply Hne. apply (f_equal length) in Hnil.
      unfold Sql.cols in Hnil. by rewrite length_imap in Hnil.
  - unfold Sql.Object_values. by rewrite fmap_app.
Qed.

Lemma sqlForPartialUpdate_snoc_witness :
  Sql.sqlForPartialUpdate ([("uom", JStr "EA")] ++ [("cost", JNum 7)])%list
    (∅ : gmap string string)
  = inr {| Sql.setCols := (dquote +:+ "uom" +:+ dquote +:+ "=$1") +:+ ", "
                            +:+ dquote +:+ "cost" +:+ dquote +:+ "=$2";
           Sql.values := [JStr "EA"; JNum 7] |}.
Proof.
  rewrite (sqlForPartialUpdate_snoc JSVal [("uom", JStr "EA")] ∅
             {| Sql.setCols := dquote +:+ "uom" +:+ dquote +:+ "=$1";
                Sql.values := [JStr "EA"] |} "cost" (JNum 7));
    vm_compute; reflexivity.
Defined.

(** ** helpers/tokens.js *)

Section ClaimFacts.
Context `{Jws}.
Variable SECRET_KEY : string.

(** The payload of [createToken], read on the user record as it was given. *)
Lemma createToken_payload (now : Z) (user : JSObject) :
  (createToken SECRET_KEY now user).1
  = Jwt.sign now
      {[ "id" := get user "id";
         "isAdmin" := js_or (get user "isAdmin") (JBool false);
         "companyId" := get user "companyId" ]} SECRET_KEY.
Proof.
  unfold createToken. cbn [fst]. case_decide as Hund; [|done].
  unfold get at 1 2 3. rewrite lookup_insert_eq, !lookup_insert_ne by done.
  fold (get user "id"). fold (get user "companyId").
  by rewrite Hund.
Qed.

(** The user record that a call leaves behind: [isAdmin] is defined on it,
    and it reads as the original record does. *)
Lemma createToken_left_defined (now : Z) (user : JSObject) :
  get (createToken SECRET_KEY now user).2 "isAdmin" ≠ JUndefined
  ∧ js_or (get (createToken SECRET_KEY now user).2 "isAdmin") (JBool false)
    = js_or (get user "isAdmin") (JBool false)
  ∧ ∀ k : string, k ≠ "isAdmin" → get (createToken SECRET_KEY now user).2 k = get user k.
Proof.
  rewrite createToken_user. case_decide as Hund.
  - assert (Hg : get (<["isAdmin" := JBool false]> user) "isAdmin" = JBool false)
      by (unfold get; by rewrite lookup_insert_eq).
    rewrite Hg, Hund. repeat split; [done|].
    intros k Hk. unfold get. by rewrite lookup_insert_ne.
  - done.
Qed.

Lemma createToken_claim (now clock : Z) (user : JSObject) :
  Jwt.verify clock (createToken SECRET_KEY now user).1 SECRET_KEY
  = inr (Jwt.json (<["iat" := JNum (Jwt.seconds now)]>
           {[ "id" := get user "id";
              "isAdmin" := js_or (get user "isAdmin") (JBool false);
              "companyId" := get user "companyId" ]})).
Proof.
  rewrite createToken_payload. unfold Jwt.verify, Jwt.sign.
  apply jws_verify_sign; unfold Jwt.json;
    apply map_lookup_filter_None; left; by simplify_map_eq.
Qed.

Lemma json_lookup (o : JSObject) (k : string) :
  Jwt.json o !! k = if decide (get o k = JUndefined) then None else o !! k.
Proof.
  unfold Jwt.json, get. destruct (o !! k) as [v|] eqn:Hk; simpl.
  - case_decide as Hv.
    + apply map_lookup_filter_None. right. intros v' Hv'. simpl. congruence.
    + apply map_lookup_filter_Some. by split.
  - apply map_lookup_filter_None. by left.
Qed.

Lemma stamped_lookup (t a b c : JSVal) (k : string) :
  (<["iat" := t]> {[ "id" := a; "isAdmin" := b; "companyId" := c ]} : JSObject) !! k
  = if decide (k = "iat") then Some t
    else if decide (k = "id") then Some a
    else if decide (k = "isAdmin") then Some b
    else if decide (k = "companyId") then Some c
    else None.
Proof. repeat case_decide; by simplify_map_eq. Qed.

Lemma claim_lookup (t a b c : JSVal) (k : string) :
  Jwt.json (<["iat" := t]> {[ "id" := a; "isAdmin" := b; "companyId" := c ]}) !! k
  = match (if decide (k = "iat") then Some t
           else if decide (k = "id") then Some a
           else if decide (k = "isAdmin") then Some b
           else if decide (k = "companyId") then Some c
           else None) with
    | Some v => if decide (v = JUndefined) then None else Some v
    | None => None
    end.
Proof.
  rewrite json_lookup. unfold get. rewrite stamped_lookup.
  destruct (if decide (k = "iat") then _ else _) as [v|]; simpl; [|done].
  by case_decide.
Qed.
End ClaimFacts.

(** X4: the claim a token of [createToken] verifies to holds the issuance
    time, the [isAdmin] of the payload, the [id] and [companyId] of the user
    record when they are defined, and nothing else: no other field of the
    user record (an email, a password) is carried by the token. *)
Theorem createToken_claim_contents :
  ∀ (J : Jws) (SECRET_KEY : string) (now clock : Z) (user : JSObject),
    ∃ claim : JSObject,
      Jwt.verify clock (createToken SECRET_KEY now user).1 SECRET_KEY = inr claim
      ∧ claim !! "iat" = Some (JNum (Jwt.seconds now))
      ∧ claim !! "isAdmin" = Some (js_or (get user "isAdmin") (JBool false))
      ∧ claim !! "id"
        = (if decide (get user "id" = JUndefined) then None else Some (get user "id"))
      ∧ claim !! "companyId"
        = (if decide (get user "companyId" = JUndefined) then None
           else Some (get user "companyId"))
      ∧ ∀ k : string, k ∉ ["id"; "isAdmin"; "companyId"; "iat"] → claim !! k = None.
Proof.
  intros J SECRET_KEY now clock user. eexists. split; [apply createToken_claim|].
  repeat split; try rewrite claim_lookup; simpl.
  - done.
  - by rewrite decide_False by apply js_or_false_defined.
  - done.
  - done.
  - intros k Hk. rewrite claim_lookup.
    rewrite !not_elem_of_cons in Hk. destruct Hk as (? & ? & ? & ? & _).
    by rewrite !decide_False by done.
Qed.

(** X5: [createToken] does not coerce [isAdmin] to a boolean: a truthy value
    of any type is signed as it is, and is the [isAdmin] of the verified
    claim. *)
Theorem createToken_truthy_isAdmin :
  ∀ (J : Jws) (SECRET_KEY : string) (now clock : Z) (user : JSObject) (v : JSVal),
    user !! "isAdmin" = Some v → truthy v = true →
    ∃ claim : JSObject,
      Jwt.verify clock (createToken SECRET_KEY now user).1 SECRET_KEY = inr claim
      ∧ claim !! "isAdmin" = Some v.
Proof.
  intros J SECRET_KEY now clock user v Hv Htruthy.
  eexists. split; [apply createToken_claim|].
  assert (Hg : get user "isAdmin" = v) by (unfold get; by rewrite Hv).
  rewrite claim_lookup. simpl. rewrite Hg. unfold js_or. rewrite Htruthy.
  rewrite decide_False; [done|]. intros ->. discriminate Htruthy.
Qed.

Lemma createToken_truthy_isAdmin_witness :
  ∃ claim : JSObject,
    Jwt.verify (H := Codec.jws) 5000
      (createToken (H := Codec.jws) "secret-dev" 1000
         {[ "id" := JNum 1; "isAdmin" := JStr "yes" ]}).1 "secret-dev"
    = inr claim
    ∧ claim !! "isAdmin" = Some (JStr "yes").
Proof.
  apply (createToken_truthy_isAdmin Codec.jws "secret-dev" 1000 5000
           {[ "id" := JNum 1; "isAdmin" := JStr "yes" ]} (JStr "yes"));
    reflexivity.
Defined.

(** X6: the default that [createToken] writes on the user record is written
    once: a second call on the record the first call left behind changes
    nothing more, and signs the token that a call on the original record
    signs at that time. *)
Theorem createToken_twice :
  ∀ (J : Jws) (SECRET_KEY : string) (now0 now : Z) (user : JSObject),
    createToken SECRET_KEY now (createToken SECRET_KEY now0 user).2
    = ((createToken SECRET_KEY now user).1, (createToken SECRET_KEY now0 user).2).
Proof.
  intros J SECRET_KEY now0 now user.
  pose proof (createToken_left_defined SECRET_KEY now0 user) as (Hdef & Hor & Hother).
  apply injective_projections.
  - rewrite !createToken_payload.
    by rewrite Hor, !Hother by done.
  - cbn [snd]. rewrite (createToken_user SECRET_KEY now). by rewrite decide_False.
Qed.

(** ** models/rfq.js and models/item.js: partial updates *)

Lemma sqlForPartialUpdate_ok {V : Type} (dataToUpdate : list (string * V))
    (m : gmap string string) :
  dataToUpdate ≠ [] →
  Sql.sqlForPartialUpdate dataToUpdate m
  = inr (Sql.mkSetClause (join ", " (Sql.cols dataToUpdate m))
                         (Sql.Object_values dataToUpdate)).
Proof. destruct dataToUpdate; [done|]. intros _. apply sqlForPartialUpdate_nonempty. Qed.

Lemma cols_identity {V : Type} (dataToUpdate : list (string * V)) (m : gmap string string) :
  (∀ k c, m !! k = Some c →
          (c = k ∨ c = EmptyString) ∧ Object_prototype !! k = None) →
  Sql.cols dataToUpdate m = Sql.cols dataToUpdate ∅.
Proof. intros Hid. apply cols_ext. intros k _. by apply column_identity. Qed.

Lemma cols_empty_lookup {V : Type} (dataToUpdate : list (string * V))
    (i : nat) (k : string) (v : V) :
  dataToUpdate !! i = Some (k, v) →
  Sql.cols dataToUpdate ∅ !! i
  = Some (dquote +:+ Sql.column ∅ k +:+ dquote +:+ "=$" +:+ pretty (S i)).
Proof.
  intros Hi. rewrite (cols_lookup _ _ _ _ _ Hi). unfold Sql.fragment.
  by rewrite Nat.add_1_r.
Qed.

(** The name maps the models pass. *)
Lemma quantity_map_identity (k c : string) :
  ({[ "quantity" := "quantity" ]} : gmap string string) !! k = Some c →
  (c = k ∨ c = EmptyString) ∧ Object_prototype !! k = None.
Proof.
  intros Hk. apply lookup_singleton_Some in Hk as [<- <-]. split; [by left | reflexivity].
Qed.

Lemma item_map_identity (k c : string) :
  ({[ "description" := "description"; "uom" := "uom"; "cost" := "cost" ]}
     : gmap string string) !! k = Some c →
  (c = k ∨ c = EmptyString) ∧ Object_prototype !! k = None.
Proof.
  intros Hk. rewrite !lookup_insert_Some, lookup_singleton_Some in Hk.
  destruct Hk as [[<- <-]|[_ [[<- <-]|[_ [<- <-]]]]]; (split; [by left | reflexivity]).
Qed.

Lemma length_Object_values {V : Type} (dataToUpdate : list (string * V)) :
  length (Sql.Object_values dataToUpdate) = length dataToUpdate.
Proof. unfold Sql.Object_values. by rewrite length_fmap. Qed.

Lemma values_then_keys {V : Type} (dataToUpdate : list (string * V)) (keys : list V) :
  length (Sql.Object_values dataToUpdate ++ keys)%list
  = (length dataToUpdate + length keys)%nat
  ∧ (∀ i k v, dataToUpdate !! i = Some (k, v) →
       (Sql.Object_values dataToUpdate ++ keys)%list !! i = Some v)
  ∧ ∀ j, (Sql.Object_values dataToUpdate ++ keys)%list !! (length dataToUpdate + j)%nat
         = keys !! j.
Proof.
  unfold Sql.Object_values. split; [|split].
  - by rewrite length_app, length_fmap.
  - intros i k v Hi. rewrite lookup_app_l.
    + by rewrite list_lookup_fmap, Hi.
    + rewrite length_fmap. by eapply lookup_lt_Some.
  - intros j. rewrite lookup_app_r; rewrite length_fmap; [|lia].
    f_equal. lia.
Qed.

(** X7: on a non-empty [data], [Rfq.updateRfqItem] sends one UPDATE whose
    placeholders and parameters agree: the field at position i (from 0)
    is the fragment ["column"=$(i+1)] and parameter i, whatever the field
    is, the column being the field's own name for every field that is not
    a name inherited from [Object.prototype]; the id is the last parameter
    and its placeholder is the number of parameters.  The method then
    returns the first row, or throws NotFound when there is none. *)
Theorem updateRfqItem_statement :
  ∀ (ToString : JSVal → string) (id : JSVal) (data : list (string * JSVal)),
    data ≠ [] →
    ∃ (setCols : string) (args : list JSVal) (cont : list JSObject → Db _ JSObject),
      RfqItem.updateRfqItem ToString id data
      = Query (RfqItem.UpdateRfqItems setCols ("$" +:+ pretty (length args))) args cont
      ∧ setCols = join ", " (Sql.cols data ∅)
      ∧ length args = S (length data)
      ∧ args !! length data = Some id
      ∧ (∀ i k v, data !! i = Some (k, v) →
           args !! i = Some v
           ∧ Sql.cols data ∅ !! i
             = Some (dquote +:+ Sql.column ∅ k +:+ dquote +:+ "=$" +:+ pretty (S i))
           ∧ (Object_prototype !! k = None → Sql.column ∅ k = k))
      ∧ cont [] = Throw (Express (NotFoundError ("No RFQ Item: " +:+ ToString id)))
      ∧ ∀ row rest, cont (row :: rest) = Ret row.
Proof.
  intros ToString id data Hne. unfold RfqItem.updateRfqItem.
  rewrite (sqlForPartialUpdate_ok _ _ Hne). cbn [Sql.setCols Sql.values].
  destruct (values_then_keys data [id]) as (Hlen & Hval & Hkey).
  eexists _, (Sql.Object_values data ++ [id])%list, _. split_and!.
  - unfold query. cbn [bind]. rewrite Hlen, length_Object_values. reflexivity.
  - f_equal. apply cols_identity, quantity_map_identity.
  - rewrite Hlen. simpl. lia.
  - specialize (Hkey 0%nat). by rewrite Nat.add_0_r in Hkey.
  - intros i k v Hi. split_and!.
    + by eapply Hval.
    + by eapply cols_empty_lookup.
    + apply column_absent, lookup_empty.
  - reflexivity.
  - reflexivity.
Qed.

Lemma updateRfqItem_statement_witness :
  ∃ (setCols : string) (args : list JSVal) cont,
    RfqItem.updateRfqItem (λ _, "7") (JStr "7") [("rfq_id", JNum 2)]
    = Query (RfqItem.UpdateRfqItems setCols ("$" +:+ pretty (length args))) args cont
    ∧ args !! 1%nat = Some (JStr "7").
Proof.
  destruct (updateRfqItem_statement (λ _, "7") (JStr "7") [("rfq_id", JNum 2)])
    as (setCols & args & cont & Hq & _ & _ & Hid & _); [discriminate|].
  by exists setCols, args, cont.
Defined.

(** X8: the outcomes of [Rfq.updateRfqItem] against any store.  An empty
    [data] is rejected with the Bad-Request error of the builder before
    any statement is sent; otherwise exactly one statement is sent, and the
    method resolves with the first returned row, rejects with NotFound
    naming the id when no row is returned, and passes a failure of the
    store on. *)
Theorem updateRfqItem_outcomes :
  ∀ (ToString : JSVal → string) (St : Type)
    (exec : RfqItem.Statement → list JSVal → St → (string + list JSObject) * St)
    (id : JSVal) (data : list (string * JSVal)) (s : St),
    (data = [] →
     run exec (RfqItem.updateRfqItem ToString id data) s
     = (Rejected (Express (BadRequestError "No data")), s)
     ∧ sent exec (RfqItem.updateRfqItem ToString id data) s = 0%nat)
    ∧ (data ≠ [] →
       sent exec (RfqItem.updateRfqItem ToString id data) s = 1%nat
       ∧ run exec (RfqItem.updateRfqItem ToString id data) s
         = match exec (RfqItem.UpdateRfqItems (join ", " (Sql.cols data ∅))
                         ("$" +:+ pretty (length data + 1)%nat))
                      (data.*2 ++ [id])%list s with
           | (inr (row :: _), s') => (Resolved row, s')
           | (inr [], s') =>
               (Rejected (Express (NotFoundError ("No RFQ Item: " +:+ ToString id))), s')
           | (inl msg, s') => (Rejected (Other msg), s')
           end).
Proof.
  intros ToString St exec id data s. split.
  - by intros ->.
  - intros Hne. unfold RfqItem.updateRfqItem.
    rewrite (sqlForPartialUpdate_ok _ _ Hne). cbn [Sql.setCols Sql.values].
    rewrite length_Object_values.
    rewrite (cols_identity data {[ "quantity" := "quantity" ]})
      by apply quantity_map_identity.
    unfold query, Sql.Object_values. cbn [bind run sent].
    split; by destruct (exec _ _ _) as [[msg|[|row rows]] s'].
Qed.

Lemma updateRfqItem_outcomes_witness :
  run (λ (_ : RfqItem.Statement) (_ : list JSVal) (s : unit), (inr [], s))
    (RfqItem.updateRfqItem (λ _, "7") (JStr "7") []) ()
  = (Rejected (Express (BadRequestError "No data")), ()).
Proof.
  apply (updateRfqItem_outcomes (λ _, "7") unit (λ _ _ s, (inr [], s)) (JStr "7") [] ()).
  reflexivity.
Defined.

(** X9: on a non-empty [data], [Item.update] sends one UPDATE in which the
    company id and the item code follow the values of the fields: they are
    the last two parameters, and the numbers printed into the WHERE clause
    are their positions, the number of fields plus one and plus two.  An
    empty [data] is rejected with the Bad-Request error and nothing is
    sent. *)
Theorem item_update_statement :
  ∀ (ToString : JSVal → string) (companyId itemCode : JSVal)
    (data : list (string * JSVal)),
    (data = [] →
     Item.update ToString companyId itemCode data
     = Throw (Express (BadRequestError "No data")))
    ∧ (data ≠ [] →
       ∃ (setCols : string) (args : list JSVal) (cont : list JSObject → Db _ JSObject),
         Item.update ToString companyId itemCode data
         = Query (Item.UpdateCompanyItems setCols
                    (pretty (length data + 1)%nat) (pretty (length data + 2)%nat))
                 args cont
         ∧ setCols = join ", " (Sql.cols data ∅)
         ∧ length args = (length data + 2)%nat
         ∧ args !! (length data + 1 - 1)%nat = Some companyId
         ∧ args !! (length data + 2 - 1)%nat = Some itemCode
         ∧ (∀ i k v, data !! i = Some (k, v) → args !! i = Some v)
         ∧ cont []
           = Throw (Express (NotFoundError
               ("No item: " +:+ ToString itemCode +:+ " for company: "
                  +:+ ToString companyId)))
         ∧ ∀ row rest, cont (row :: rest) = Ret row).
Proof.
  intros ToString companyId itemCode data. split; [by intros ->|].
  intros Hne. unfold Item.update.
  rewrite (sqlForPartialUpdate_ok _ _ Hne). cbn [Sql.setCols Sql.values].
  destruct (values_then_keys data [companyId; itemCode]) as (Hlen & Hval & Hkey).
  eexists _, (Sql.Object_values data ++ [companyId; itemCode])%list, _.
  split_and!.
  - unfold query. cbn [bind]. rewrite !length_Object_values. reflexivity.
  - f_equal. apply cols_identity, item_map_identity.
  - exact Hlen.
  - specialize (Hkey 0%nat). rewrite Nat.add_0_r in Hkey.
    replace (length data + 1 - 1)%nat with (length data) by lia. exact Hkey.
  - specialize (Hkey 1%nat).
    replace (length data + 2 - 1)%nat with (length data + 1)%nat by lia. exact Hkey.
  - intros i k v Hi. by eapply Hval.
  - reflexivity.
  - reflexivity.
Qed.

Lemma item_update_statement_witness :
  ∃ (setCols : string) (args : list JSVal) cont,
    Item.update (λ _, "x") (JNum 1) (JStr "item001") [("uom", JStr "EA")]
    = Query (Item.UpdateCompanyItems setCols "2" "3") args cont
    ∧ args !! 2%nat = Some (JStr "item001").
Proof.
  destruct (proj2 (item_update_statement (λ _, "x") (JNum 1) (JStr "item001")
                     [("uom", JStr "EA")]))
    as (setCols & args & cont & Hq & _ & _ & _ & Hcode & _); [discriminate|].
  by exists setCols, args, cont.
Defined.

(** ** models/rfq.js: listing, counting and reading *)

Lemma add_filter_spec (condition : string) (value : JSVal)
    (query : list string) (queryValues : list JSVal) :
  Rfqs.add_filter condition value (query, queryValues)
  = ((query ++ if truthy value
               then [condition +:+ pretty (length queryValues + 1)%nat] else [])%list,
     (queryValues ++ if truthy value then [value] else [])%list).
Proof.
  unfold Rfqs.add_filter. destruct (truthy value); [done|].
  by rewrite !app_nil_r.
Qed.

(** Each appended condition ends with the number of its own parameter. *)
Lemma add_filter_numbered (condition : string) (value : JSVal)
    (acc : list string * list JSVal) :
  (length acc.1 = length acc.2
   ∧ ∀ i c, acc.1 !! i = Some c → ∃ text, c = text +:+ pretty (S i)) →
  length (Rfqs.add_filter condition value acc).1
  = length (Rfqs.add_filter condition value acc).2
  ∧ ∀ i c, (Rfqs.add_filter condition value acc).1 !! i = Some c →
           ∃ text, c = text +:+ pretty (S i).
Proof.
  destruct acc as [query queryValues]. cbn [fst snd]. intros [Hlen Hnum].
  rewrite add_filter_spec. cbn [fst snd].
  destruct (truthy value); [|by rewrite !app_nil_r].
  split; [by rewrite !length_app, Hlen|].
  intros i c Hc. apply lookup_app_Some in Hc as [Hc|[Hge Hc]]; [by eapply Hnum|].
  apply list_lookup_singleton_Some in Hc as [Hi <-].
  exists condition. rewrite <- Hlen, Nat.add_1_r. do 2 f_equal. lia.
Qed.

Lemma add_filter_truthy (condition : string) (value : JSVal)
    (acc : list string * list JSVal) :
  Forall (λ v, truthy v = true) acc.2 →
  Forall (λ v, truthy v = true) (Rfqs.add_filter condition value acc).2.
Proof.
  destruct acc as [query queryValues]. cbn [fst snd]. intros Hall.
  rewrite add_filter_spec. cbn [fst snd].
  destruct (truthy value) eqn:Hv; [|by rewrite app_nil_r].
  apply Forall_app. split; [done|]. by apply Forall_singleton.
Qed.

(** X10: [Rfq.findAll] sends one select whose appended conditions and
    parameters agree.  The filters given are the truthy ones among
    [companyId], [userId] and [rfqNumber], in this order; a falsy filter
    (absent, empty, 0) adds nothing.  The parameters are the values of the
    filters given, and the condition at position i (from 0) is
    [ AND rfqs.<column> = $<i+1>] for the column of the filter at that
    position. *)
Theorem findAll_conditions :
  ∀ searchFilters : JSObject,
    let given :=
      filter (λ cv : string * JSVal, truthy cv.2 = true)
        [("company_id", get searchFilters "companyId");
         ("user_id", get searchFilters "userId");
         ("rfq_number", get searchFilters "rfqNumber")] in
    Rfqs.findAll searchFilters
    = Query (Rfqs.SelectRfqs
               (imap (λ i cv, " AND rfqs." +:+ cv.1 +:+ " = $" +:+ pretty (S i)) given))
            given.*2 Ret.
Proof.
  intros searchFilters. unfold Rfqs.findAll.
  rewrite !add_filter_spec. cbn [fst snd app]. rewrite !filter_cons, filter_nil.
  cbn [snd].
  by destruct (truthy (get searchFilters "companyId")),
       (truthy (get searchFilters "userId")),
       (truthy (get searchFilters "rfqNumber")).
Qed.

(** X11: the handler of [GET /rfqs/count].  Without a truthy [userId] or
    [companyId] it hands a Bad-Request error onward and leaves the store
    alone.  Otherwise the count statement carries at least one condition,
    with as many parameters as conditions, all truthy; a failure of the
    store is reported as the one generic error, never with the store's
    message and never as a Bad-Request, Unauthorized or NotFound error. *)
Theorem count_route_outcomes :
  ∀ (St : Type) (exec : Rfqs.CountStatement → list JSVal → St → (string + list JSObject) * St)
    (req_query : JSObject) (s : St),
    (truthy (get req_query "userId") = false →
     truthy (get req_query "companyId") = false →
     Rfqs.count_route exec req_query s
     = (Rejected (Express (BadRequestError "Either userId or companyId is required")), s))
    ∧ (truthy (get req_query "userId") = true ∨ truthy (get req_query "companyId") = true →
       ∃ (conditions : list string) (params : list JSVal),
         Rfqs.count_query (get req_query "userId") (get req_query "companyId")
         = (conditions, params)
         ∧ conditions ≠ []
         ∧ length conditions = length params
         ∧ Forall (λ v, truthy v = true) params
         ∧ Rfqs.count_route exec req_query s
           = match exec (Rfqs.CountRfqs conditions) params s with
             | (inr (row :: _), s') => (Resolved (get row "count"), s')
             | (inr [], s') => (Resolved (JNum 0), s')
             | (inl _, s') => (Rejected (Other "Error fetching RFQ count."), s')
             end).
Proof.
  intros St exec req_query s. unfold Rfqs.count_route. split.
  - by intros -> ->.
  - intros Hsome.
    set (userId := get req_query "userId") in *.
    set (companyId := get req_query "companyId") in *.
    destruct (Rfqs.count_query userId companyId) as [conditions params] eqn:Hq.
    assert (Hnum : length conditions = length params).
    { change conditions with (conditions, params).1.
      change params with (conditions, params).2 at 2. rewrite <- Hq.
      unfold Rfqs.count_query. by do 2 apply add_filter_numbered. }
    assert (Hall : Forall (λ v, truthy v = true) params).
    { change params with (conditions, params).2. rewrite <- Hq.
      unfold Rfqs.count_query. do 2 apply add_filter_truthy. constructor. }
    assert (Hne : conditions ≠ []).
    { unfold Rfqs.count_query in Hq. rewrite !add_filter_spec in Hq.
      injection Hq as <- _.
      destruct Hsome as [-> | ->]; [by destruct (truthy companyId)|].
      by destruct (truthy userId). }
    exists conditions, params. split_and!; try done.
    replace (negb (truthy userId) && negb (truthy companyId)) with false
      by (by destruct Hsome as [-> | ->]; [|destruct (truthy userId)]).
    unfold Rfqs.getRfqCount. rewrite Hq.
    by destruct (exec _ _ _) as [[msg|[|row rows]] s'].
Qed.

Lemma count_route_outcomes_witness :
  Rfqs.count_route (λ (_ : Rfqs.CountStatement) (_ : list JSVal) (s : unit), (inr [], s))
    (∅ : JSObject) ()
  = (Rejected (Express (BadRequestError "Either userId or companyId is required")), ()).
Proof.
  apply (count_route_outcomes unit (λ _ _ s, (inr [], s)) ∅ ()); reflexivity.
Defined.

Lemma rfqItem_of_id (row : JSObject) : get (Rfqs.rfqItem_of row) "id" = get row "rfq_item_id".
Proof. unfold Rfqs.rfqItem_of, get at 1. by simplify_map_eq. Qed.

Lemma rfqItem_of_fields (row : JSObject) :
  get (Rfqs.rfqItem_of row) "id" = get row "rfq_item_id"
  ∧ get (Rfqs.rfqItem_of row) "itemCode" = get row "item_code"
  ∧ get (Rfqs.rfqItem_of row) "quantity" = get row "quantity"
  ∧ get (Rfqs.rfqItem_of row) "itemCost" = get row "itemCost"
  ∧ get (Rfqs.rfqItem_of row) "itemUom" = get row "itemUom"
  ∧ get (Rfqs.rfqItem_of row) "itemDescription" = get row "itemDescription".
Proof. unfold Rfqs.rfqItem_of. split_and!; unfold get at 1; by simplify_map_eq. Qed.

(** X12: what [Rfq.get] makes of the rows of its select.  Without a row it
    throws NotFound naming the id.  Otherwise the nested items are the rows
    that have a truthy [rfq_item_id], in order: the item at position j is
    made of the j-th such row, its [id], [itemCode], [quantity],
    [itemCost], [itemUom] and [itemDescription] being the [rfq_item_id],
    [item_code], [quantity], [itemCost], [itemUom] and [itemDescription] of
    that row; so every item has a truthy [id] and an RFQ whose rows have
    none (an RFQ without items) has an empty list.  The RFQ's own fields
    are the first row without [rfq_item_id], [itemCode], [itemCost],
    [itemUom] and [itemDescription], every other column of that row,
    [item_code] and [quantity] among them, being kept. *)
Theorem get_rfq_groups :
  ∀ (ToString : JSVal → string) (id : JSVal),
    ∃ cont : list JSObject → Db Rfqs.Statement Rfqs.RfqWithItems,
      Rfqs.get_rfq ToString id = Query Rfqs.SelectRfq [id] cont
      ∧ cont [] = Throw (Express (NotFoundError ("No RFQ: " +:+ ToString id)))
      ∧ ∀ (rfq : JSObject) (rest : list JSObject),
          ∃ r : Rfqs.RfqWithItems,
            cont (rfq :: rest) = Ret r
            ∧ length (Rfqs.rfqItems r)
              = length (filter (λ row, truthy (get row "rfq_item_id") = true) (rfq :: rest))
            ∧ (∀ (j : nat) (row : JSObject),
                 filter (λ row, truthy (get row "rfq_item_id") = true) (rfq :: rest) !! j
                 = Some row →
                 ∃ item : JSObject,
                   Rfqs.rfqItems r !! j = Some item
                   ∧ get item "id" = get row "rfq_item_id"
                   ∧ get item "itemCode" = get row "item_code"
                   ∧ get item "quantity" = get row "quantity"
                   ∧ get item "itemCost" = get row "itemCost"
                   ∧ get item "itemUom" = get row "itemUom"
                   ∧ get item "itemDescription" = get row "itemDescription")
            ∧ Forall (λ item, truthy (get item "id") = true) (Rfqs.rfqItems r)
            ∧ (Forall (λ row, truthy (get row "rfq_item_id") = false) (rfq :: rest) →
               Rfqs.rfqItems r = [])
            ∧ (∀ k, k ∈ ["rfq_item_id"; "itemCode"; "itemCost"; "itemUom"; "itemDescription"] →
                    Rfqs.details r !! k = None)
            ∧ (∀ k, k ∉ ["rfq_item_id"; "itemCode"; "itemCost"; "itemUom"; "itemDescription"] →
                    Rfqs.details r !! k = rfq !! k).
Proof.
  intros ToString id. eexists. split; [reflexivity|]. split; [reflexivity|].
  intros rfq rest. eexists. split; [reflexivity|]. cbn [Rfqs.rfqItems Rfqs.details].
  split_and!.
  - by rewrite length_fmap.
  - intros j row Hj. exists (Rfqs.rfqItem_of row).
    split; [by rewrite list_lookup_fmap, Hj | apply rfqItem_of_fields].
  - apply Forall_fmap, Forall_forall. intros row Hrow.
    apply list_elem_of_filter in Hrow as [Hid _]. simpl. by rewrite rfqItem_of_id.
  - intros Hnone. rewrite filter_nothing; [done|].
    eapply Forall_impl; [exact Hnone|]. simpl. intros row ->. discriminate.
  - intros k Hk. unfold Rfqs.rfqDetails_of. rewrite !lookup_delete.
    rewrite !elem_of_cons, elem_of_nil in Hk.
    destruct Hk as [->|[->|[->|[->|[->|[]]]]]]; by repeat case_decide.
  - intros k Hk. unfold Rfqs.rfqDetails_of. rewrite !lookup_delete.
    rewrite !not_elem_of_cons in Hk. destruct Hk as (? & ? & ? & ? & ? & _).
    by rewrite !decide_False by done.
Qed.

(** ** models/user.js: registration and update *)

Lemma run_bind {Q St A B : Type}
    (exec : Q → list JSVal → St → (string + list JSObject) * St)
    (m : Db Q A) (f : A → Db Q B) (s : St) :
  run exec (bind m f) s
  = match run exec m s with
    | (Resolved a, s') => run exec (f a) s'
    | (Rejected e, s') => (Rejected e, s')
    end.
Proof.
  revert s. induction m as [a|e|q args k IH]; intros s; simpl; [done..|].
  destruct (exec q args s) as [[msg|rows] s']; [done|]. apply IH.
Qed.

Section RegisterFacts.
Variable ToString : JSVal → string.
Variable bcrypt_hash : JSVal → option string.
Variable insert : list JSVal → list User.Row → (string + list JSObject) * list User.Row.

(** The parameters of the insert of [register], for the hash [h]. *)
Lemma register_run (d : Users.RegisterData) (users : list User.Row) :
  run (Users.exec_register insert) (Users.register ToString bcrypt_hash d) users
  = match User.with_email (Users.email d) users with
    | _ :: _ =>
        (Rejected (Express (BadRequestError
           ("Duplicate email: " +:+ ToString (Users.email d)))), users)
    | [] =>
        match bcrypt_hash (Users.password d) with
        | None => (Rejected (Other "bcrypt"), users)
        | Some h =>
            match insert [Users.email d; JStr h; Users.fullName d;
                          if decide (Users.phone d = JUndefined) then JNull
                          else Users.phone d;
                          Users.isAdmin d; Users.companyId d] users with
            | (inr rows, users') => (Resolved (head rows), users')
            | (inl msg, users') => (Rejected (Other msg), users')
            end
        end
    end.
Proof.
  unfold Users.register, query. cbn [bind run Users.exec_register].
  destruct (User.with_email (Users.email d) users) as [|r rest]; simpl; [|done].
  destruct (bcrypt_hash (Users.password d)) as [h|]; simpl; [|done].
  by destruct (insert _ users) as [[msg|rows] users'].
Qed.

Lemma register_sent_duplicate (d : Users.RegisterData) (users : list User.Row) :
  User.with_email (Users.email d) users ≠ [] →
  sent (Users.exec_register insert) (Users.register ToString bcrypt_hash d) users = 1%nat.
Proof.
  intros Hdup. unfold Users.register, query. cbn [bind sent Users.exec_register].
  by destruct (User.with_email (Users.email d) users) as [|r rest].
Qed.
End RegisterFacts.

(** X13: when a user already has the email, [User.register] rejects with
    the Bad-Request error naming the email, after its one duplicate check:
    the password is not hashed, no insert is sent and the users are left as
    they were, whatever the hash function and the store's insert are. *)
Theorem register_duplicate :
  ∀ (ToString : JSVal → string) (bcrypt_hash : JSVal → option string)
    (insert : list JSVal → list User.Row → (string + list JSObject) * list User.Row)
    (d : Users.RegisterData) (users : list User.Row),
    User.with_email (Users.email d) users ≠ [] →
    run (Users.exec_register insert) (Users.register ToString bcrypt_hash d) users
    = (Rejected (Express (BadRequestError
         ("Duplicate email: " +:+ ToString (Users.email d)))), users)
    ∧ sent (Users.exec_register insert) (Users.register ToString bcrypt_hash d) users
      = 1%nat.
Proof.
  intros ToString bcrypt_hash insert d users Hdup. split.
  - rewrite register_run. by destruct (User.with_email _ users).
  - by apply register_sent_duplicate.
Qed.

Lemma register_duplicate_witness :
  run (Users.exec_register (λ _ users, (inl "unreachable", users)))
    (Users.register (λ _, "u1@example.com") (λ _, Some "hash")
       (Users.mkRegisterData (JStr "u1@example.com") (JStr "pw") (JStr "U") JUndefined
          (JBool false) (JNum 1)))
    [User.mkRow 1 "u1@example.com" "password1" "User One" None false 1]
  = (Rejected (Express (BadRequestError ("Duplicate email: " +:+ "u1@example.com"))),
     [User.mkRow 1 "u1@example.com" "password1" "User One" None false 1]).
Proof.
  apply (register_duplicate (λ _, "u1@example.com") (λ _, Some "hash")
           (λ _ users, (inl "unreachable", users))
           (Users.mkRegisterData (JStr "u1@example.com") (JStr "pw") (JStr "U") JUndefined
              (JBool false) (JNum 1))
           [User.mkRow 1 "u1@example.com" "password1" "User One" None false 1]).
  vm_compute. discriminate.
Defined.

(** X14: when no user has the email and the password hashes to [h],
    [User.register] sends the insert with the six parameters email, [h],
    full name, phone, admin flag and company id: the password reaches the
    store as its hash, and the phone parameter is [null] when the phone is
    not given, never [undefined].  The method returns the first row the
    insert returns. *)
Theorem register_insert :
  ∀ (ToString : JSVal → string) (bcrypt_hash : JSVal → option string)
    (insert : list JSVal → list User.Row → (string + list JSObject) * list User.Row)
    (d : Users.RegisterData) (users : list User.Row) (h : string),
    User.with_email (Users.email d) users = [] →
    bcrypt_hash (Users.password d) = Some h →
    ∃ phone : JSVal,
      phone ≠ JUndefined
      ∧ (Users.phone d ≠ JUndefined → phone = Users.phone d)
      ∧ (Users.phone d = JUndefined → phone = JNull)
      ∧ run (Users.exec_register insert) (Users.register ToString bcrypt_hash d) users
        = match insert [Users.email d; JStr h; Users.fullName d; phone;
                        Users.isAdmin d; Users.companyId d] users with
          | (inr rows, users') => (Resolved (head rows), users')
          | (inl msg, users') => (Rejected (Other msg), users')
          end.
Proof.
  intros ToString bcrypt_hash insert d users h Hfree Hhash.
  exists (if decide (Users.phone d = JUndefined) then JNull else Users.phone d).
  split_and!.
  - by case_decide.
  - intros ?. by rewrite decide_False.
  - intros ?. by rewrite decide_True.
  - by rewrite register_run, Hfree, Hhash.
Qed.

Lemma register_insert_witness :
  ∃ phone : JSVal,
    phone ≠ JUndefined
    ∧ run (Users.exec_register (λ _ users, (inr [], users)))
        (Users.register (λ _, "e") (λ _, Some "hash")
           (Users.mkRegisterData (JStr "new@example.com") (JStr "pw") (JStr "N") JUndefined
              (JBool false) (JNum 1))) []
      = (Resolved None, []).
Proof.
  destruct (register_insert (λ _, "e") (λ _, Some "hash") (λ _ users, (inr [], users))
              (Users.mkRegisterData (JStr "new@example.com") (JStr "pw") (JStr "N")
                 JUndefined (JBool false) (JNum 1)) [] "hash")
    as (phone & Hdef & _ & _ & Hrun); [reflexivity..|].
  exists phone. split; [exact Hdef | exact Hrun].
Defined.

(** X15: registration followed by login.  When no user has the email, the
    store adds a row holding the email and the hash it was sent, and
    [bcrypt.compare] accepts the password against its own hash, then
    [User.register] resolves with the returned row and [User.authenticate]
    with the same email and password succeeds on the resulting users: it
    returns the new row without its password. *)
Theorem register_then_authenticate :
  ∀ (ToString : JSVal → string) (bcrypt_hash : JSVal → option string)
    (bcrypt_compare : JSVal → JSVal → option bool)
    (insert : list JSVal → list User.Row → (string + list JSObject) * list User.Row)
    (d : Users.RegisterData) (users : list User.Row) (e h : string)
    (row : User.Row) (returned : JSObject),
    Users.email d = JStr e →
    User.with_email (JStr e) users = [] →
    bcrypt_hash (Users.password d) = Some h →
    bcrypt_compare (Users.password d) (JStr h) = Some true →
    insert [Users.email d; JStr h; Users.fullName d;
            if decide (Users.phone d = JUndefined) then JNull else Users.phone d;
            Users.isAdmin d; Users.companyId d] users
    = (inr [returned], (users ++ [row])%list) →
    User.email row = e → User.password row = h →
    run (Users.exec_register insert) (Users.register ToString bcrypt_hash d) users
    = (Resolved (Some returned), (users ++ [row])%list)
    ∧ run User.exec (User.authenticate bcrypt_compare (JStr e) (Users.password d))
        (users ++ [row])%list
      = (Resolved (delete "password" (User.selected row)), (users ++ [row])%list).
Proof.
  intros ToString bcrypt_hash bcrypt_compare insert d users e h row returned
    He Hfree Hhash Hcmp Hins Hemail Hpw.
  split.
  - by rewrite register_run, He, Hfree, Hhash, <- He, Hins.
  - rewrite authenticate_run. unfold User.with_email in *.
    rewrite filter_app, Hfree, filter_cons_True, filter_nil by (by rewrite Hemail).
    simpl. by rewrite Hpw, Hcmp.
Qed.

Lemma register_then_authenticate_witness :
  run User.exec
    (User.authenticate (λ data hash, Some (bool_decide (hash = JStr "hash")))
       (JStr "new@example.com") (JStr "pw"))
    ([] ++ [User.mkRow 1 "new@example.com" "hash" "N" None false 1])%list
  = (Resolved (delete "password"
       (User.selected (User.mkRow 1 "new@example.com" "hash" "N" None false 1))),
     ([] ++ [User.mkRow 1 "new@example.com" "hash" "N" None false 1])%list).
Proof.
  apply (register_then_authenticate (λ _, "e") (λ _, Some "hash")
           (λ data hash, Some (bool_decide (hash = JStr "hash")))
           (λ _ users, (inr [∅], users ++ [User.mkRow 1 "new@example.com" "hash" "N" None false 1])%list)
           (Users.mkRegisterData (JStr "new@example.com") (JStr "pw") (JStr "N") JUndefined
              (JBool false) (JNum 1))
           [] "new@example.com" "hash"
           (User.mkRow 1 "new@example.com" "hash" "N" None false 1) ∅);
    reflexivity.
Defined.

Lemma field_truthy_present (data : list (string * JSVal)) (k : string) :
  truthy (Users.field data k) = true → k ∈ data.*1.
Proof.
  unfold Users.field. intros Htruthy.
  destruct (filter (λ kv, kv.1 = k) data) as [|kv rest] eqn:Hf; [discriminate Htruthy|].
  assert (Hin : kv ∈ filter (λ kv, kv.1 = k) data) by (rewrite Hf; left).
  apply list_elem_of_filter in Hin as [<- Hin].
  by apply list_elem_of_fmap_2.
Qed.

Lemma assign_present (k : string) (v : JSVal) (data : list (string * JSVal)) :
  k ∈ data.*1 →
  (Users.assign k v data).*1 = data.*1
  ∧ ∀ i k' v', data !! i = Some (k', v') →
      Users.assign k v data !! i = Some (k', if decide (k' = k) then v else v').
Proof.
  intros Hin. unfold Users.assign. rewrite decide_True by done. split.
  - rewrite <- list_fmap_compose. apply list_fmap_ext. intros i [k' v'] _. simpl.
    by case_decide.
  - intros i k' v' Hi. rewrite list_lookup_fmap, Hi. simpl. by case_decide; subst.
Qed.

(** X16: [User.update] with a truthy [password] in [data] hashes it in
    place before anything is sent: the caller's [data] keeps its fields and
    their order, the value of [password] becomes the hash and the other
    values stay; the UPDATE that follows is built from this [data], so at
    the position of [password] its parameter is the hash, and the id is
    the parameter after the values. *)
Theorem user_update_hashes_password :
  ∀ (ToString : JSVal → string) (bcrypt_hash : JSVal → option string)
    (id : JSVal) (data : list (string * JSVal)) (h : string),
    truthy (Users.field data "password") = true →
    bcrypt_hash (Users.field data "password") = Some h →
    ∃ (data' : list (string * JSVal)) (setCols : string)
      (cont : list JSObject → Db Users.UpdateStatement Users.UpdatedUser),
      Users.update ToString bcrypt_hash id data
      = (data', Query (Users.UpdateUsers setCols ("$" +:+ pretty (length data + 1)%nat))
                  (data'.*2 ++ [id])%list cont)
      ∧ data'.*1 = data.*1
      ∧ (∀ i k v, data !! i = Some (k, v) →
           data' !! i = Some (k, if decide (k = "password") then JStr h else v))
      ∧ (∀ i v, data !! i = Some ("password", v) →
           (data'.*2 ++ [id])%list !! i = Some (JStr h))
      ∧ (data'.*2 ++ [id])%list !! length data = Some id.
Proof.
  intros ToString bcrypt_hash id data h Htruthy Hhash.
  pose proof (field_truthy_present _ _ Htruthy) as Hin.
  destruct (assign_present "password" (JStr h) data Hin) as [Hkeys Hvals].
  assert (Hlen : length (Users.assign "password" (JStr h) data) = length data).
  { apply (f_equal length) in Hkeys. by rewrite !length_fmap in Hkeys. }
  assert (Hne : Users.assign "password" (JStr h) data ≠ []).
  { intros Hnil. rewrite Hnil in Hlen. destruct data; [|done].
    by apply elem_of_nil in Hin. }
  destruct (values_then_keys (Users.assign "password" (JStr h) data) [id])
    as (_ & Hval & Hkey).
  unfold Users.update. rewrite Htruthy, Hhash. cbn zeta.
  unfold Users.update_row. rewrite (sqlForPartialUpdate_ok _ _ Hne).
  cbn [Sql.setCols Sql.values]. rewrite length_Object_values, Hlen.
  eexists _, _, _. split_and!.
  - unfold query. cbn [bind]. reflexivity.
  - exact Hkeys.
  - exact Hvals.
  - intros i v Hi. specialize (Hvals i _ _ Hi). rewrite decide_True in Hvals by done.
    by eapply Hval.
  - specialize (Hkey 0%nat). by rewrite Hlen, Nat.add_0_r in Hkey.
Qed.

Lemma user_update_hashes_password_witness :
  ∃ data' setCols cont,
    Users.update (λ _, "5") (λ _, Some "hash") (JStr "5")
      [("phone", JStr "555"); ("password", JStr "secret")]
    = (data', Query (Users.UpdateUsers setCols ("$" +:+ pretty 3%nat))
                (data'.*2 ++ [JStr "5"])%list cont)
    ∧ (data'.*2 ++ [JStr "5"])%list !! 1%nat = Some (JStr "hash").
Proof.
  destruct (user_update_hashes_password (λ _, "5") (λ _, Some "hash") (JStr "5")
              [("phone", JStr "555"); ("password", JStr "secret")] "hash")
    as (data' & setCols & cont & Hupd & _ & _ & Hpw & _); [reflexivity..|].
  exists data', setCols, cont. split; [exact Hupd|].
  apply (Hpw 1%nat (JStr "secret")). reflexivity.
Defined.

(** What [User.update] leaves of a non-empty [data] and runs on it, when
    the hashing of a truthy password does not fail. *)
Lemma user_update_program (ToString : JSVal → string) (bcrypt_hash : JSVal → option string)
    (id : JSVal) (data : list (string * JSVal)) :
  data ≠ [] →
  (truthy (Users.field data "password") = true →
   is_Some (bcrypt_hash (Users.field data "password"))) →
  (Users.update ToString bcrypt_hash id data).2
  = Users.update_row ToString id (Users.update ToString bcrypt_hash id data).1
  ∧ length (Users.update ToString bcrypt_hash id data).1 = length data.
Proof.
  intros Hne Hhash. unfold Users.update.
  destruct (truthy (Users.field data "password")) eqn:Htruthy; [|done].
  destruct (Hhash eq_refl) as [h ->]. cbn [fst snd]. split; [done|].
  pose proof (field_truthy_present _ _ Htruthy) as Hin.
  destruct (assign_present "password" (JStr h) data Hin) as [Hkeys _].
  apply (f_equal length) in Hkeys. by rewrite !length_fmap in Hkeys.
Qed.

(** X17: the outcomes of [User.update] on a non-empty [data], against any
    store, when the hashing of a truthy password does not fail.  The first
    statement is the UPDATE built from the [data] the method leaves, with
    the id after its values.  When this UPDATE returns no row the method
    rejects with NotFound naming the id and the company is not looked up
    (one statement sent); when it returns a row, the company is selected by
    the [companyId] of that row, and the method resolves with the row
    without any [password] field, its other fields untouched, and with the
    first company row when there is one (two statements sent). *)
Theorem user_update_outcomes :
  ∀ (ToString : JSVal → string) (bcrypt_hash : JSVal → option string) (St : Type)
    (exec : Users.UpdateStatement → list JSVal → St → (string + list JSObject) * St)
    (id : JSVal) (data : list (string * JSVal)) (s : St),
    data ≠ [] →
    (truthy (Users.field data "password") = true →
     is_Some (bcrypt_hash (Users.field data "password"))) →
    let data' := (Users.update ToString bcrypt_hash id data).1 in
    let program := (Users.update ToString bcrypt_hash id data).2 in
    let q :=
      Users.UpdateUsers
        (join ", " (Sql.cols data'
           {[ "email" := "email"; "fullName" := "full_name"; "phone" := "phone" ]}))
        ("$" +:+ pretty (length data + 1)%nat) in
    let args := (data'.*2 ++ [id])%list in
    (∀ s1, exec q args s = (inr [], s1) →
       run exec program s
       = (Rejected (Express (NotFoundError ("No user with id of: " +:+ ToString id))), s1)
       ∧ sent exec program s = 1%nat)
    ∧ (∀ user rest s1 companyRes s2,
         exec q args s = (inr (user :: rest), s1) →
         exec Users.SelectCompany [get user "companyId"] s1 = (inr companyRes, s2) →
         ∃ r : Users.UpdatedUser,
           run exec program s = (Resolved r, s2)
           ∧ Users.fields r !! "password" = None
           ∧ (∀ k, k ≠ "password" → Users.fields r !! k = user !! k)
           ∧ Users.company r = head companyRes
           ∧ sent exec program s = 2%nat).
Proof.
  intros ToString bcrypt_hash St exec id data s Hne Hhash data' program q args.
  destruct (user_update_program ToString bcrypt_hash id data Hne Hhash) as [Hprog Hlen].
  fold data' in Hprog, Hlen. fold program in Hprog.
  assert (Hne' : data' ≠ []) by (intros Hnil; rewrite Hnil in Hlen; by destruct data).
  subst q args. rewrite Hprog. unfold Users.update_row.
  rewrite (sqlForPartialUpdate_ok _ _ Hne'). cbn [Sql.setCols Sql.values].
  rewrite length_Object_values, Hlen. unfold query, Sql.Object_values.
  cbn [bind run sent]. split.
  - intros s1 ->. by simpl.
  - intros user rest s1 companyRes s2 -> Hcompany. cbn [head bind run sent].
    rewrite Hcompany. eexists. split_and!; [reflexivity|..|done|done].
    + apply lookup_delete_eq.
    + intros k Hk. by apply lookup_delete_ne.
Qed.

Lemma user_update_outcomes_witness :
  run (λ (_ : Users.UpdateStatement) (_ : list JSVal) (s : unit),
         (@inr string (list JSObject) [], s))
    (Users.update (λ _, "5") (λ _, Some "hash") (JStr "5")
       [("phone", JStr "555"); ("password", JStr "secret")]).2 ()
  = (Rejected (Express (NotFoundError ("No user with id of: " +:+ "5"))), ()).
Proof.
  apply (user_update_outcomes (λ _, "5") (λ _, Some "hash") unit
           (λ _ _ s, (@inr string (list JSObject) [], s)) (JStr "5")
           [("phone", JStr "555"); ("password", JStr "secret")] ());
    [discriminate | by eexists | reflexivity].
Defined.

(** ** routes *)



(** X19: login through [POST /auth/token].  When the first user with the
    email of the body exists and [bcrypt.compare] accepts the password, the
    handler answers with a token that verifies, under the secret, to a
    claim holding the id, the admin flag and the company id of that user
    and the issuance time, and neither the password nor the email; the
    users are left as they were.  When no user has the email, the handler
    hands the Unauthorized error onward and issues no token. *)
Theorem post_token_login :
  ∀ (J : Jws) (SECRET_KEY : string) (bcrypt_compare : JSVal → JSVal → option bool)
    (now clock : Z) (body : JSObject) (users : list User.Row),
    (∀ (r : User.Row) (rest : list User.Row),
       User.with_email (get body "email") users = r :: rest →
       bcrypt_compare (get body "password") (JStr (User.password r)) = Some true →
       ∃ (token : string) (claim : JSObject),
         run User.exec (Routes.post_token SECRET_KEY bcrypt_compare now body) users
         = (Resolved token, users)
         ∧ Jwt.verify clock token SECRET_KEY = inr claim
         ∧ claim !! "id" = Some (JNum (User.id r))
         ∧ claim !! "isAdmin" = Some (JBool (User.is_admin r))
         ∧ claim !! "companyId" = Some (JNum (User.company_id r))
         ∧ claim !! "iat" = Some (JNum (Jwt.seconds now))
         ∧ claim !! "password" = None
         ∧ claim !! "email" = None)
    ∧ (User.with_email (get body "email") users = [] →
       run User.exec (Routes.post_token SECRET_KEY bcrypt_compare now body) users
       = (Rejected (Express (UnauthorizedError "Invalid email/password")), users)).
Proof.
  intros J SECRET_KEY bcrypt_compare now clock body users.
  unfold Routes.post_token. rewrite run_bind, authenticate_run. split.
  - intros r rest -> Hcmp. cbn [head]. rewrite Hcmp. cbn [run].
    eexists _, _. split; [reflexivity|]. split; [apply createToken_claim|].
    assert (Hid : get (delete "password" (User.selected r)) "id" = JNum (User.id r))
      by (unfold get, User.selected; by simplify_map_eq).
    assert (Hadm : get (delete "password" (User.selected r)) "isAdmin"
                   = JBool (User.is_admin r))
      by (unfold get, User.selected; by simplify_map_eq).
    assert (Hco : get (delete "password" (User.selected r)) "companyId"
                  = JNum (User.company_id r))
      by (unfold get, User.selected; by simplify_map_eq).
    rewrite Hid, Hadm, Hco. rewrite !claim_lookup. simpl.
    split_and!; try done. by destruct (User.is_admin r).
  - by intros ->.
Qed.

Lemma post_token_login_witness :
  run User.exec
    (Routes.post_token (H := Codec.jws) "secret-dev"
       (λ data hash, Some (bool_decide (data = hash))) 1000
       {[ "email" := JStr "nobody@example.com"; "password" := JStr "pw" ]})
    [User.mkRow 1 "u1@example.com" "password1" "User One" None false 1]
  = (Rejected (Express (UnauthorizedError "Invalid email/password")),
     [User.mkRow 1 "u1@example.com" "password1" "User One" None false 1]).
Proof.
  apply (post_token_login Codec.jws "secret-dev"
           (λ data hash, Some (bool_decide (data = hash))) 1000 1000
           {[ "email" := JStr "nobody@example.com"; "password" := JStr "pw" ]}
           [User.mkRow 1 "u1@example.com" "password1" "User One" None false 1]).
  reflexivity.
Defined.

(** X20: registration through [POST /auth/register] never creates an
    admin and never stores a phone: whatever the body holds under
    [isAdmin] and [phone], when the email is free and the password hashes
    to [h], the insert is sent with the admin flag [false] and the phone
    [null], the other parameters being the email, [h], the full name and
    the company id of the body.  The handler answers 201 with the token of
    the first returned row. *)
Theorem post_register_never_admin :
  ∀ (J : Jws) (SECRET_KEY : string) (ToString : JSVal → string)
    (bcrypt_hash : JSVal → option string)
    (insert : list JSVal → list User.Row → (string + list JSObject) * list User.Row)
    (now : Z) (body : JSObject) (users : list User.Row) (h : string),
    User.with_email (get body "email") users = [] →
    bcrypt_hash (get body "password") = Some h →
    run (Users.exec_register insert)
      (Routes.post_register SECRET_KEY ToString bcrypt_hash now body) users
    = match insert [get body "email"; JStr h; get body "fullName"; JNull; JBool false;
                    get body "companyId"] users with
      | (inr (newUser :: _), users') =>
          (Resolved (201, (createToken SECRET_KEY now newUser).1), users')
      | (inr [], users') => (Rejected (Other "TypeError"), users')
      | (inl msg, users') => (Rejected (Other msg), users')
      end.
Proof.
  intros J SECRET_KEY ToString bcrypt_hash insert now body users h Hfree Hhash.
  unfold Routes.post_register. rewrite run_bind, register_run.
  cbn [Users.email Users.password Users.fullName Users.phone Users.isAdmin Users.companyId].
  assert (Hget : ∀ k, k ≠ "isAdmin" → k ≠ "phone" →
            get (<["isAdmin" := JBool false]> (<["phone" := JNull]> body)) k = get body k).
  { intros k ? ?. unfold get. by rewrite !lookup_insert_ne. }
  rewrite (Hget "email"), (Hget "password"), (Hget "fullName"), (Hget "companyId")
    by congruence.
  rewrite Hfree, Hhash.
  replace (get (<["isAdmin" := JBool false]> (<["phone" := JNull]> body)) "phone")
    with JNull by (unfold get; by simplify_map_eq).
  replace (get (<["isAdmin" := JBool false]> (<["phone" := JNull]> body)) "isAdmin")
    with (JBool false) by (unfold get; by simplify_map_eq).
  rewrite decide_False by done.
  by destruct (insert _ users) as [[msg|[|newUser rows]] users'].
Qed.

Lemma post_register_never_admin_witness :
  run (Users.exec_register (λ _ users, (@inr string (list JSObject) [], users)))
    (Routes.post_register (H := Codec.jws) "secret-dev" (λ _, "e") (λ _, Some "hash") 1000
       {[ "email" := JStr "new@example.com"; "password" := JStr "pw";
          "isAdmin" := JBool true ]}) []
  = (Rejected (Other "TypeError"), []).
Proof.
  rewrite (post_register_never_admin Codec.jws "secret-dev" (λ _, "e") (λ _, Some "hash")
             (λ _ users, (@inr string (list JSObject) [], users)) 1000
             {[ "email" := JStr "new@example.com"; "password" := JStr "pw";
                "isAdmin" := JBool true ]} [] "hash"); reflexivity.
Defined.
